(** * Serverless example handlers: a shallow embedding and its properties

    The repository holds two stand-alone Python scripts:

    - [notes/code_examples/python_function_example/main.py], the Greeter,
      which reads [NAME] from the process environment and prints a greeting
      as indented JSON;
    - [test.py], the Image Processor, which reads [IMAGE_URL], [WIDTH] and
      [HEIGHT], downloads the image, resizes it, turns it to grayscale, blurs
      it, and prints a JSON document with the base64 text of the JPEG.

    Python [str] values are modelled as Rocq strings (characters with code
    points below 256), [bytes] as lists of [byte], [int] as [Z], [dict] used
    as a JSON document as an ordered association list, and [os.environ] as a
    finite map from names to values.  Printing and the calls into [requests]
    and [PIL] are effects: they are threaded through a small state and
    exception monad whose state records standard output and the log of
    library calls. *)

From Stdlib Require Import ZArith NArith Ascii String List Lia.
From Stdlib.Strings Require Import Byte.
From stdpp Require Import base option list strings gmap pretty.

Local Open Scope string_scope.
Local Open Scope Z_scope.

(** ** Characters that a string literal cannot hold directly *)

Definition dquote : ascii := "034"%char.
Definition backslash : ascii := "092"%char.
Definition newline : ascii := "010"%char.

Definition str1 (c : ascii) : string := String c EmptyString.

(** [s] between double quotes. *)
Definition quoted (s : string) : string := str1 dquote +:+ s +:+ str1 dquote.

(** ** Exceptions, process state and the monad of scripts *)

(** A raised exception: its class name and the text that [str(e)] gives.
    Every exception of the model derives from Python's [Exception]. *)
Record exn := Exn { exn_class : string; exn_str : string }.

(** Calls into the third-party and standard libraries, in the order in which
    they are made. *)
Inductive call :=
| CallGet (url : string)
| CallRaiseForStatus
| CallImageOpen
| CallResize (width height : Z)
| CallGrayscale
| CallGaussianBlur (radius : Z)
| CallSave (format : string)
| CallB64encode.

(** The observable state of a running script: the lines given to [print],
    oldest first, and the library calls made so far. *)
Record world := World { stdout : list string; calls : list call }.

Definition init_world : world := World [] [].

Inductive result (A : Type) :=
| Ok (a : A)
| Raise (e : exn).
Arguments Ok {A} a.
Arguments Raise {A} e.

Definition py (A : Type) : Type := world -> result A * world.

#[global] Instance py_ret : MRet py := fun A a w => (Ok a, w).
#[global] Instance py_bind : MBind py := fun A B f m w =>
  match m w with
  | (Ok a, w') => f a w'
  | (Raise e, w') => (Raise e, w')
  end.
#[global] Instance py_throw : MThrow exn py := fun A e w => (Raise e, w).

(** [try: body except Exception as e: handler e] *)
Definition try_except {A} (body : py A) (handler : exn -> py A) : py A :=
  fun w =>
    match body w with
    | (Ok a, w') => (Ok a, w')
    | (Raise e, w') => handler e w'
    end.

(** [print(s)]: one more line on standard output. *)
Definition print (s : string) : py unit :=
  fun w => (Ok tt, World (stdout w ++ [s]) (calls w)).

(** A library call: logged, then its outcome returned or raised. *)
Definition invoke {A} (c : call) (r : exn + A) : py A :=
  fun w =>
    let w' := World (stdout w) (calls w ++ [c]) in
    match r with
    | inr a => (Ok a, w')
    | inl e => (Raise e, w')
    end.

(** What the operating system sees of a finished script
    ([if __name__ == "__main__": main()]): an uncaught exception ends the
    interpreter with a traceback on standard error and exit status 1.
    [proc_stderr] holds that exception; what a library may write to standard
    error on its own account is not recorded. *)
Record process := Process {
  proc_stdout : list string;
  proc_stderr : option exn;
  proc_exit : Z;
  proc_calls : list call
}.

Definition run_script {A} (m : py A) : process :=
  match m init_world with
  | (Ok _, w) => Process (stdout w) None 0 (calls w)
  | (Raise e, w) => Process (stdout w) (Some e) 1 (calls w)
  end.

(** ** The process environment *)

(** [os.environ.get(key, default)] *)
Definition environ_get (env : gmap string string) (key dflt : string) : string :=
  match env !! key with
  | Some v => v
  | None => dflt
  end.

(** ** JSON documents and [json.dumps] *)

Module Json.

#[local] Set Warnings "-register-all".

Inductive json :=
| JStr (s : string)
| JInt (n : Z)
| JList (items : list json)
| JDict (items : list (string * json)).

(** [d.get(key)] on a document that is a dict. *)
Fixpoint assoc (key : string) (items : list (string * json)) : option json :=
  match items with
  | [] => None
  | (k, v) :: rest => if String.eqb k key then Some v else assoc key rest
  end.

Definition jget (key : string) (v : json) : option json :=
  match v with
  | JDict items => assoc key items
  | _ => None
  end.

Definition keys (v : json) : list string :=
  match v with
  | JDict items => map fst items
  | _ => []
  end.

Definition hex_digit (n : N) : ascii :=
  match n with
  | 0 => "0" | 1 => "1" | 2 => "2" | 3 => "3" | 4 => "4" | 5 => "5"
  | 6 => "6" | 7 => "7" | 8 => "8" | 9 => "9" | 10 => "a" | 11 => "b"
  | 12 => "c" | 13 => "d" | 14 => "e" | _ => "f"
  end%char%N.

(** The encoder's [ensure_ascii] escaping of one character: the two-character
    escapes, printable ASCII as it is, anything else as a [\u] escape of four
    lower-case hexadecimal digits. *)
Definition escape_char (c : ascii) : string :=
  let n := N_of_ascii c in
  if (n =? 34)%N then String backslash (str1 dquote)
  else if (n =? 92)%N then String backslash (str1 backslash)
  else if (n =? 10)%N then String backslash "n"
  else if (n =? 13)%N then String backslash "r"
  else if (n =? 9)%N then String backslash "t"
  else if (n =? 8)%N then String backslash "b"
  else if (n =? 12)%N then String backslash "f"
  else if ((32 <=? n) && (n <=? 126))%N then str1 c
  else String backslash
         (String "u" (String "0" (String "0"
           (String (hex_digit (n / 16)) (str1 (hex_digit (n mod 16))))))).

Fixpoint escape (s : string) : string :=
  match s with
  | EmptyString => EmptyString
  | String c rest => escape_char c +:+ escape rest
  end.

Definition encode_basestring_ascii (s : string) : string :=
  str1 dquote +:+ escape s +:+ str1 dquote.

Fixpoint spaces (n : nat) : string :=
  match n with
  | O => EmptyString
  | S k => String " " (spaces k)
  end.

(** The text put before each item and before the closing bracket: nothing
    without [indent], a line break and [indent * level] spaces with it. *)
Definition newline_indent (indent : option nat) (level : nat) : string :=
  match indent with
  | None => EmptyString
  | Some k => String newline (spaces (k * level))
  end.

Definition item_separator (indent : option nat) (level : nat) : string :=
  match indent with
  | None => ", "
  | Some _ => "," +:+ newline_indent indent level
  end.

Definition key_separator : string := ": ".

Fixpoint join (sep : string) (parts : list string) : string :=
  match parts with
  | [] => EmptyString
  | [p] => p
  | p :: rest => p +:+ sep +:+ join sep rest
  end.

Definition container (opening closing : string) (indent : option nat)
    (level : nat) (parts : list string) : string :=
  match parts with
  | [] => opening +:+ closing
  | _ => opening +:+ newline_indent indent (S level)
         +:+ join (item_separator indent (S level)) parts
         +:+ newline_indent indent level +:+ closing
  end.

Fixpoint iterencode (indent : option nat) (level : nat) (v : json) : string :=
  match v with
  | JStr s => encode_basestring_ascii s
  | JInt n => pretty n
  | JList items =>
      container "[" "]" indent level
        (map (iterencode indent (S level)) items)
  | JDict items =>
      container "{" "}" indent level
        (map (fun kv => encode_basestring_ascii (fst kv) +:+ key_separator
                        +:+ iterencode indent (S level) (snd kv)) items)
  end.

(** [json.dumps(v)] is [dumps None v]; [json.dumps(v, indent=2)] is
    [dumps (Some 2) v]. *)
Definition dumps (indent : option nat) (v : json) : string :=
  iterencode indent 0 v.

End Json.

Import Json.

(** ** Base64, as [base64.b64encode] and [base64.b64decode] compute it *)

Module Base64.

Local Open Scope N_scope.

Definition alphabet : string :=
  "ABCDEFGHIJKLMNOPQRSTUVWXYZabcdefghijklmnopqrstuvwxyz0123456789+/".

Definition BASE64_PAD : byte := "="%byte.

Definition byte_of_N (n : N) : byte :=
  match Byte.of_N (n mod 256) with
  | Some b => b
  | None => x00
  end.

(** The character of a six-bit value. *)
Definition table_b2a_base64 (i : N) : byte :=
  nth (N.to_nat i) (list_byte_of_string alphabet) BASE64_PAD.

(** The six-bit value of a character of the alphabet, [None] for any other
    byte. *)
Definition table_a2b_base64 (c : byte) : option N :=
  let n := Byte.to_N c in
  if (65 <=? n) && (n <=? 90) then Some (n - 65)
  else if (97 <=? n) && (n <=? 122) then Some (n - 71)
  else if (48 <=? n) && (n <=? 57) then Some (n + 4)
  else if n =? 43 then Some 62
  else if n =? 47 then Some 63
  else None.

(** [binascii.b2a_base64(data, newline=False)]: every three bytes give four
    characters; one or two bytes left over give two or three characters and
    the padding that completes the quad. *)
Fixpoint b2a_base64 (data : list byte) : list byte :=
  match data with
  | [] => []
  | [b0] =>
      let n0 := Byte.to_N b0 in
      [table_b2a_base64 (N.shiftr n0 2);
       table_b2a_base64 (N.shiftl (N.land n0 3) 4);
       BASE64_PAD; BASE64_PAD]
  | [b0; b1] =>
      let n0 := Byte.to_N b0 in
      let n1 := Byte.to_N b1 in
      [table_b2a_base64 (N.shiftr n0 2);
       table_b2a_base64 (N.lor (N.shiftl (N.land n0 3) 4) (N.shiftr n1 4));
       table_b2a_base64 (N.shiftl (N.land n1 15) 2);
       BASE64_PAD]
  | b0 :: b1 :: b2 :: rest =>
      let n0 := Byte.to_N b0 in
      let n1 := Byte.to_N b1 in
      let n2 := Byte.to_N b2 in
      table_b2a_base64 (N.shiftr n0 2)
      :: table_b2a_base64 (N.lor (N.shiftl (N.land n0 3) 4) (N.shiftr n1 4))
      :: table_b2a_base64 (N.lor (N.shiftl (N.land n1 15) 2) (N.shiftr n2 6))
      :: table_b2a_base64 (N.land n2 63)
      :: b2a_base64 rest
  end.

(** The loop of [binascii.a2b_base64] in its default, non-strict mode.
    [quad_pos] counts the characters of the current quad, [leftchar] holds
    the bits not yet written, [pads] the padding characters seen in a row.
    Bytes outside the alphabet are skipped; a padding sequence that completes
    a quad ends the input; input that ends inside a quad is an error
    ([None]). *)
Fixpoint a2b_loop (data : list byte) (quad_pos : nat) (leftchar : N)
    (pads : nat) (bin_data : list byte) : option (list byte) :=
  match data with
  | [] => if Nat.eqb quad_pos 0 then Some bin_data else None
  | this_ch :: rest =>
      if Byte.eqb this_ch BASE64_PAD then
        if Nat.leb 2 quad_pos then
          if Nat.leb 4 (quad_pos + S pads) then Some bin_data
          else a2b_loop rest quad_pos leftchar (S pads) bin_data
        else a2b_loop rest quad_pos leftchar pads bin_data
      else
        match table_a2b_base64 this_ch with
        | None => a2b_loop rest quad_pos leftchar pads bin_data
        | Some v =>
            match quad_pos with
            | 0%nat => a2b_loop rest 1 v 0 bin_data
            | 1%nat =>
                a2b_loop rest 2 (N.land v 15) 0
                  (bin_data ++ [byte_of_N (N.lor (N.shiftl leftchar 2) (N.shiftr v 4))])
            | 2%nat =>
                a2b_loop rest 3 (N.land v 3) 0
                  (bin_data ++ [byte_of_N (N.lor (N.shiftl leftchar 4) (N.shiftr v 2))])
            | _ =>
                a2b_loop rest 0 0 0
                  (bin_data ++ [byte_of_N (N.lor (N.shiftl leftchar 6) v)])
            end
        end
  end.

Definition a2b_base64 (data : list byte) : option (list byte) :=
  a2b_loop data 0 0 0 [].

(** [base64.b64encode(data)] *)
Definition b64encode (data : list byte) : list byte := b2a_base64 data.

(** [bytes.decode('utf-8')] on data that is ASCII only, as the output of
    [b64encode] is ([b64encode_ascii] below): every byte is the character of
    the same code. *)
Definition decode_utf8 (data : list byte) : string := string_of_list_byte data.

Definition is_ascii (c : byte) : bool := Byte.to_N c <? 128.

(** [base64.b64decode(s)] on a [str]: the text is first encoded as ASCII,
    which fails on any other character, then decoded.  [None] stands for the
    exception raised. *)
Definition b64decode (s : string) : option (list byte) :=
  let data := list_byte_of_string s in
  if forallb is_ascii data then a2b_base64 data else None.

(** Every byte, and every six-bit value: the finite domains over which the
    bit-level facts of the round trip are checked by evaluation. *)
Definition all_sextets : list N := map N.of_nat (seq 0 64).
Definition all_bytes : list byte := map (fun n => byte_of_N (N.of_nat n)) (seq 0 256).

Definition sextet_ok (i : N) : bool :=
  match table_a2b_base64 (table_b2a_base64 i) with
  | Some v => v =? i
  | None => false
  end
  && negb (Byte.eqb (table_b2a_base64 i) BASE64_PAD).

(** The second and third character of a quad and the byte they complete. *)
Definition sextet1 (n0 n1 : N) : N := N.lor (N.shiftl (N.land n0 3) 4) (N.shiftr n1 4).
Definition sextet2 (n1 n2 : N) : N := N.lor (N.shiftl (N.land n1 15) 2) (N.shiftr n2 6).

Definition first_byte_ok (b0 b1 : byte) : bool :=
  let n0 := Byte.to_N b0 in
  let n1 := Byte.to_N b1 in
  (N.shiftr n0 2 <? 64) && (sextet1 n0 n1 <? 64)
  && Byte.eqb (byte_of_N (N.lor (N.shiftl (N.shiftr n0 2) 2) (N.shiftr (sextet1 n0 n1) 4))) b0
  && (N.land (sextet1 n0 n1) 15 =? N.shiftr n1 4).

Definition second_byte_ok (b1 b2 : byte) : bool :=
  let n1 := Byte.to_N b1 in
  let n2 := Byte.to_N b2 in
  (sextet2 n1 n2 <? 64) && (N.land n2 63 <? 64)
  && Byte.eqb (byte_of_N (N.lor (N.shiftl (N.shiftr n1 4) 4) (N.shiftr (sextet2 n1 n2) 2))) b1
  && (N.land (sextet2 n1 n2) 3 =? N.shiftr n2 6)
  && Byte.eqb (byte_of_N (N.lor (N.shiftl (N.shiftr n2 6) 6) (N.land n2 63))) b2.

End Base64.

Import Base64.

(** ** The interpreter and the libraries the scripts call *)

(** What the scripts read from the running interpreter.  The text of the
    [ValueError] that [int] raises is left to the interpreter: it only ever
    reaches the traceback.  [int_max_str_digits] is
    [sys.get_int_max_str_digits()]: 4300 unless the interpreter was started
    with another value, 0 when the limit is turned off or absent. *)
Class Interpreter := {
  sys_version : string;
  sys_platform : string;
  invalid_literal : string -> string;
  int_max_str_digits : nat
}.

Inductive image_filter :=
| GaussianBlur (radius : Z).

(** [requests] and [PIL], each call either returning a value or raising. *)
Class Libraries := {
  Response : Type;
  Image : Type;
  requests_get : string -> exn + Response;
  raise_for_status : Response -> exn + unit;
  content : Response -> list byte;
  Image_open : list byte -> exn + Image;
  Image_resize : Image -> Z * Z -> exn + Image;
  ImageOps_grayscale : Image -> exn + Image;
  Image_filter : Image -> image_filter -> exn + Image;
  Image_save : Image -> string -> exn + list byte
}.

(** ** The built-in [int] on a string, base ten *)

Module PyInt.

(** White space for the C library's classification of ASCII characters:
    tab to carriage return, and the space. *)
Definition Py_ISSPACE (c : ascii) : bool :=
  let n := N_of_ascii c in
  (((9 <=? n) && (n <=? 13)) || (n =? 32))%N.

(** White space as [str] knows it, among the characters below 256: the
    above, the four separators from 28 to 31, the next-line character and the
    no-break space. *)
Definition Py_UNICODE_ISSPACE (c : ascii) : bool :=
  let n := N_of_ascii c in
  (((9 <=? n) && (n <=? 13)) || ((28 <=? n) && (n <=? 32))
   || (n =? 133) || (n =? 160))%N.

(** What [int] skips at both ends of its argument.  A character from 127 on
    that [str] counts as white space is first replaced by a space; the
    characters below 127 are left as they are, and of those only the ASCII
    white space is skipped.  The separators from 28 to 31 are therefore not
    skipped. *)
Definition is_space (c : ascii) : bool :=
  Py_ISSPACE c || ((127 <=? N_of_ascii c)%N && Py_UNICODE_ISSPACE c).

Definition digit_value (c : ascii) : option Z :=
  let n := N_of_ascii c in
  if ((48 <=? n) && (n <=? 57))%N then Some (Z.of_N n - 48) else None.

Fixpoint lstrip (s : string) : string :=
  match s with
  | String c rest => if is_space c then lstrip rest else s
  | EmptyString => EmptyString
  end.

Definition strip (s : string) : string :=
  String.rev (lstrip (String.rev (lstrip s))).

(** The digits after the first one: single underscores may separate digits,
    and the literal may not end with one. *)
Fixpoint scan_digits (acc : Z) (prev_underscore : bool) (s : string) : option Z :=
  match s with
  | EmptyString => if prev_underscore then None else Some acc
  | String c rest =>
      match digit_value c with
      | Some d => scan_digits (10 * acc + d) false rest
      | None =>
          if Ascii.eqb c "_" then
            if prev_underscore then None else scan_digits acc true rest
          else None
      end
  end.

Definition parse_magnitude (s : string) : option Z :=
  match s with
  | EmptyString => None
  | String c rest =>
      match digit_value c with
      | Some d => scan_digits d false rest
      | None => None
      end
  end.

(** An optional sign, then the digits. *)
Definition parse_signed (body : string) : option Z :=
  match body with
  | String "+" rest => parse_magnitude rest
  | String "-" rest => option_map Z.opp (parse_magnitude rest)
  | _ => parse_magnitude body
  end.

(** The number of decimal digits of a literal; underscores do not count,
    leading zeros do. *)
Fixpoint count_digits (s : string) : nat :=
  match s with
  | EmptyString => 0%nat
  | String c rest =>
      match digit_value c with
      | Some _ => S (count_digits rest)
      | None => count_digits rest
      end
  end.

(** Literals of more than 640 digits are checked against the interpreter's
    limit, unless that limit is 0. *)
Definition str_digits_check_threshold : nat := 640.

Definition too_many_digits `{Interpreter} (digits : nat) : bool :=
  ((str_digits_check_threshold <? digits)
   && (0 <? int_max_str_digits) && (int_max_str_digits <? digits))%nat.

(** White space around, an optional sign, then the digits, no more of them
    than the interpreter allows.  [None] is the [ValueError]. *)
Definition parse_int `{Interpreter} (s : string) : option Z :=
  let body := strip s in
  match parse_signed body with
  | Some n => if too_many_digits (count_digits body) then None else Some n
  | None => None
  end.

Definition int `{Interpreter} (s : string) : py Z :=
  match parse_int s with
  | Some n => mret n
  | None => mthrow (Exn "ValueError" (invalid_literal s))
  end.

End PyInt.

Import PyInt.

(** ** notes/code_examples/python_function_example/main.py *)

Module Greeter.

Section Script.
Context `{Interpreter}.
Variable env : gmap string string.

Definition main : py json :=
  let name := environ_get env "NAME" "World" in
  let message := "Hello, " +:+ name +:+ "!" in
  let response :=
    JDict [("message", JStr message);
           ("timestamp", JStr "2023-01-16T12:34:56Z");
           ("environment",
             JDict [("python_version", JStr sys_version);
                    ("platform", JStr sys_platform)])] in
  print (dumps (Some 2%nat) response);;
  mret response.

End Script.

End Greeter.

(** ** test.py *)

Module ImageProcessor.

Definition default_image_url : string :=
  "https://plus.unsplash.com/premium_photo-1747135794086-280753a24793?q=80&w=1935&auto=format&fit=crop&ixlib=rb-4.1.0&ixid=M3wxMjA3fDB8MHxwaG90by1wYWdlfHx8fGVufDB8fHx8fA%3D%3D".

(** Truth value of a [str]: only the empty one is false. *)
Definition truthy (s : string) : bool :=
  match s with
  | EmptyString => false
  | String _ _ => true
  end.

Definition error_response (message : string) : json :=
  JDict [("error", JStr message); ("status", JStr "error")].

Definition success_response (image_url img_str : string) (width height : Z) : json :=
  JDict [("original_url", JStr image_url);
         ("processed_image", JStr img_str);
         ("transformations", JList [JStr "resize"; JStr "grayscale"; JStr "blur"]);
         ("dimensions", JDict [("width", JInt width); ("height", JInt height)]);
         ("status", JStr "success")].

Section Script.
Context `{Interpreter} `{Libraries}.
Variable env : gmap string string.

(** The body of the [try] statement. *)
Definition process_image (image_url : string) (width height : Z) : py unit :=
  response ← invoke (CallGet image_url) (requests_get image_url);
  invoke CallRaiseForStatus (raise_for_status response);;
  image ← invoke CallImageOpen (Image_open (content response));
  image ← invoke (CallResize width height) (Image_resize image (width, height));
  image ← invoke CallGrayscale (ImageOps_grayscale image);
  image ← invoke (CallGaussianBlur 2) (Image_filter image (GaussianBlur 2));
  buffered ← invoke (CallSave "JPEG") (Image_save image "JPEG");
  encoded ← invoke CallB64encode (inr (b64encode buffered));
  let img_str := decode_utf8 encoded in
  let response := success_response image_url img_str width height in
  print (dumps None response).

Definition main : py unit :=
  let image_url := environ_get env "IMAGE_URL" default_image_url in
  width ← int (environ_get env "WIDTH" "300");
  height ← int (environ_get env "HEIGHT" "300");
  if negb (truthy image_url) then
    print (dumps None (error_response "No image URL provided"))
  else
    try_except (process_image image_url width height)
      (fun e => print (dumps None (error_response (exn_str e)))).

(** *** Outcomes of the pipeline

    [raises url w h e]: on the way from the download to the JPEG bytes some
    library call raises [e], every call before it having returned.
    [completes url w h jpeg]: every call returns, the last one the bytes
    [jpeg]. *)
Inductive raises (image_url : string) (width height : Z) (e : exn) : Prop :=
| raises_get :
    requests_get image_url = inl e ->
    raises image_url width height e
| raises_status response :
    requests_get image_url = inr response ->
    raise_for_status response = inl e ->
    raises image_url width height e
| raises_open response :
    requests_get image_url = inr response ->
    raise_for_status response = inr tt ->
    Image_open (content response) = inl e ->
    raises image_url width height e
| raises_resize response img0 :
    requests_get image_url = inr response ->
    raise_for_status response = inr tt ->
    Image_open (content response) = inr img0 ->
    Image_resize img0 (width, height) = inl e ->
    raises image_url width height e
| raises_grayscale response img0 img1 :
    requests_get image_url = inr response ->
    raise_for_status response = inr tt ->
    Image_open (content response) = inr img0 ->
    Image_resize img0 (width, height) = inr img1 ->
    ImageOps_grayscale img1 = inl e ->
    raises image_url width height e
| raises_blur response img0 img1 img2 :
    requests_get image_url = inr response ->
    raise_for_status response = inr tt ->
    Image_open (content response) = inr img0 ->
    Image_resize img0 (width, height) = inr img1 ->
    ImageOps_grayscale img1 = inr img2 ->
    Image_filter img2 (GaussianBlur 2) = inl e ->
    raises image_url width height e
| raises_save response img0 img1 img2 img3 :
    requests_get image_url = inr response ->
    raise_for_status response = inr tt ->
    Image_open (content response) = inr img0 ->
    Image_resize img0 (width, height) = inr img1 ->
    ImageOps_grayscale img1 = inr img2 ->
    Image_filter img2 (GaussianBlur 2) = inr img3 ->
    Image_save img3 "JPEG" = inl e ->
    raises image_url width height e.

Definition completes (image_url : string) (width height : Z)
    (jpeg : list byte) : Prop :=
  exists response img0 img1 img2 img3,
    requests_get image_url = inr response /\
    raise_for_status response = inr tt /\
    Image_open (content response) = inr img0 /\
    Image_resize img0 (width, height) = inr img1 /\
    ImageOps_grayscale img1 = inr img2 /\
    Image_filter img2 (GaussianBlur 2) = inr img3 /\
    Image_save img3 "JPEG" = inr jpeg.

(** The library calls of a run in which nothing raises. *)
Definition pipeline_calls (image_url : string) (width height : Z) : list call :=
  [CallGet image_url; CallRaiseForStatus; CallImageOpen;
   CallResize width height; CallGrayscale; CallGaussianBlur 2;
   CallSave "JPEG"; CallB64encode].

End Script.

End ImageProcessor.

(** ** A small interpreter and library to run the scripts on *)

Module Sample.

#[local] Instance interpreter : Interpreter := {|
  sys_version := "3.11.4 (main, Jun  7 2023, 00:00:00) [GCC 12.2.0]";
  sys_platform := "linux";
  invalid_literal s := "invalid literal for int() with base 10: '" +:+ s +:+ "'";
  int_max_str_digits := 4300
|}.

Record picture := Picture {
  pic_size : Z * Z;
  pic_mode : string;
  pic_data : list byte
}.

Definition cat_url : string := "http://images.test/cat.png".
Definition missing_url : string := "http://images.test/missing.png".

Definition cat_png : list byte := [x89; x50; x4e; x47].
Definition cat_jpeg : list byte := [xff; xd8; x89; x50; x4e; x47; xff; xd9].

(** Environments of three runs: a picture asked for at 100 by 150, an empty
    address with a width that is not a number, and no setting at all. *)
Definition cat_env : gmap string string :=
  {[ "IMAGE_URL" := cat_url; "WIDTH" := "100"; "HEIGHT" := "150" ]}.
Definition no_url_env : gmap string string :=
  {[ "IMAGE_URL" := EmptyString; "WIDTH" := "abc" ]}.
Definition negative_env : gmap string string :=
  {[ "IMAGE_URL" := cat_url; "WIDTH" := "-5"; "HEIGHT" := "0" ]}.

Definition get (url : string) : exn + (Z * list byte) :=
  if String.eqb url cat_url then inr (200, cat_png)
  else if String.eqb url missing_url then inr (404, [])
  else inl (Exn "ConnectionError" "Failed to establish a new connection").

Definition not_found : exn :=
  Exn "HTTPError" "404 Client Error: Not Found for url: http://images.test/missing.png".

Definition check_status (r : Z * list byte) : exn + unit :=
  if (400 <=? fst r) && (fst r <? 600) then inl not_found else inr tt.

Definition open (body : list byte) : exn + picture :=
  match body with
  | [] => inl (Exn "UnidentifiedImageError" "cannot identify image file")
  | _ => inr (Picture (4, 2) "RGB" body)
  end.

Definition resize (p : picture) (size : Z * Z) : exn + picture :=
  if (0 <? fst size) && (0 <? snd size)
  then inr (Picture size (pic_mode p) (pic_data p))
  else inl (Exn "ValueError" "height and width must be > 0").

Definition grayscale (p : picture) : exn + picture :=
  inr (Picture (pic_size p) "L" (pic_data p)).

Definition filter (p : picture) (f : image_filter) : exn + picture :=
  inr p.

Definition save (p : picture) (format : string) : exn + list byte :=
  inr (xff :: xd8 :: pic_data p ++ [xff; xd9])%list.

#[local] Instance libraries : Libraries := {|
  Response := Z * list byte;
  Image := picture;
  requests_get := get;
  raise_for_status := check_status;
  content := snd;
  Image_open := open;
  Image_resize := resize;
  ImageOps_grayscale := grayscale;
  Image_filter := filter;
  Image_save := save
|}.

End Sample.

(** ** Predicates on texts *)

Module Text.

(** Every character of [s] satisfies [P]. *)
Fixpoint all_chars (P : ascii -> bool) (s : string) : bool :=
  match s with
  | EmptyString => true
  | String c rest => P c && all_chars P rest
  end.

(** The printable ASCII characters, from the space to the tilde. *)
Definition printable (c : ascii) : bool :=
  let n := N_of_ascii c in ((32 <=? n) && (n <=? 126))%N.

Definition is_digit (c : ascii) : bool :=
  let n := N_of_ascii c in ((48 <=? n) && (n <=? 57))%N.

(** The characters of base64 text: the alphabet and the padding. *)
Definition is_base64_char (c : ascii) : bool :=
  let n := N_of_ascii c in
  (((65 <=? n) && (n <=? 90)) || ((97 <=? n) && (n <=? 122))
   || ((48 <=? n) && (n <=? 57)) || (n =? 43) || (n =? 47) || (n =? 61))%N.

(** How many times [c] occurs in [s]. *)
Fixpoint count_char (c : ascii) (s : string) : nat :=
  match s with
  | EmptyString => 0%nat
  | String x rest => ((if Ascii.eqb x c then 1 else 0) + count_char c rest)%nat
  end.

Definition all_ascii : list ascii :=
  map (fun n => ascii_of_nat n) (seq 0 256).

End Text.

Import Text.

(** * Properties *)

(** ** Base64: decoding undoes encoding *)

Section Base64_round_trip.

Local Open Scope N_scope.

Lemma byte_of_to_N (b : byte) : byte_of_N (Byte.to_N b) = b.
Proof.
  unfold byte_of_N.
  pose proof (Byte.to_N_bounded b) as Hb.
  rewrite N.mod_small by lia.
  now rewrite Byte.of_to_N.
Qed.

Lemma in_all_bytes (b : byte) : In b all_bytes.
Proof.
  unfold all_bytes. apply in_map_iff.
  exists (N.to_nat (Byte.to_N b)). split.
  - rewrite N2Nat.id. apply byte_of_to_N.
  - apply in_seq. pose proof (Byte.to_N_bounded b). lia.
Qed.

Lemma in_all_sextets (i : N) : i < 64 -> In i all_sextets.
Proof.
  intros Hi. unfold all_sextets. apply in_map_iff.
  exists (N.to_nat i). split; [apply N2Nat.id | apply in_seq; lia].
Qed.

Lemma sextets_checked : forallb sextet_ok all_sextets = true.
Proof. vm_compute. reflexivity. Qed.

Lemma first_bytes_checked :
  forallb (fun b0 => forallb (first_byte_ok b0) all_bytes) all_bytes = true.
Proof. vm_compute. reflexivity. Qed.

Lemma second_bytes_checked :
  forallb (fun b1 => forallb (second_byte_ok b1) all_bytes) all_bytes = true.
Proof. vm_compute. reflexivity. Qed.

Lemma byte_eqb_true (a b : byte) : Byte.eqb a b = true -> a = b.
Proof. apply Byte.byte_dec_bl. Qed.

Lemma table_round_trip (i : N) :
  i < 64 ->
  table_a2b_base64 (table_b2a_base64 i) = Some i /\
  Byte.eqb (table_b2a_base64 i) BASE64_PAD = false.
Proof.
  intros Hi.
  pose proof (proj1 (forallb_forall _ _) sextets_checked i (in_all_sextets i Hi)) as Hc.
  unfold sextet_ok in Hc. apply andb_prop in Hc as [Ht Hp].
  split.
  - destruct (table_a2b_base64 (table_b2a_base64 i)) as [v|]; [|discriminate].
    apply N.eqb_eq in Ht. now subst.
  - now apply negb_true_iff in Hp.
Qed.

Lemma first_byte_facts (b0 b1 : byte) :
  let n0 := Byte.to_N b0 in
  let n1 := Byte.to_N b1 in
  N.shiftr n0 2 < 64 /\ sextet1 n0 n1 < 64 /\
  byte_of_N (N.lor (N.shiftl (N.shiftr n0 2) 2) (N.shiftr (sextet1 n0 n1) 4)) = b0 /\
  N.land (sextet1 n0 n1) 15 = N.shiftr n1 4.
Proof.
  pose proof (proj1 (forallb_forall _ _) first_bytes_checked b0 (in_all_bytes b0)) as Hc.
  pose proof (proj1 (forallb_forall _ _) Hc b1 (in_all_bytes b1)) as Hd.
  unfold first_byte_ok in Hd.
  repeat (apply andb_prop in Hd as [Hd ?]).
  repeat split;
    solve [ now apply N.ltb_lt | now apply byte_eqb_true | now apply N.eqb_eq ].
Qed.

Lemma second_byte_facts (b1 b2 : byte) :
  let n1 := Byte.to_N b1 in
  let n2 := Byte.to_N b2 in
  sextet2 n1 n2 < 64 /\ N.land n2 63 < 64 /\
  byte_of_N (N.lor (N.shiftl (N.shiftr n1 4) 4) (N.shiftr (sextet2 n1 n2) 2)) = b1 /\
  N.land (sextet2 n1 n2) 3 = N.shiftr n2 6 /\
  byte_of_N (N.lor (N.shiftl (N.shiftr n2 6) 6) (N.land n2 63)) = b2.
Proof.
  pose proof (proj1 (forallb_forall _ _) second_bytes_checked b1 (in_all_bytes b1)) as Hc.
  pose proof (proj1 (forallb_forall _ _) Hc b2 (in_all_bytes b2)) as Hd.
  unfold second_byte_ok in Hd.
  repeat (apply andb_prop in Hd as [Hd ?]).
  repeat split;
    solve [ now apply N.ltb_lt | now apply byte_eqb_true | now apply N.eqb_eq ].
Qed.

(** One step of the decoding loop on a character of the alphabet. *)
Lemma a2b_loop_sextet (i : N) (rest : list byte) (quad_pos : nat)
    (leftchar : N) (pads : nat) (bin_data : list byte) :
  i < 64 ->
  a2b_loop (table_b2a_base64 i :: rest) quad_pos leftchar pads bin_data =
  match quad_pos with
  | 0%nat => a2b_loop rest 1 i 0 bin_data
  | 1%nat =>
      a2b_loop rest 2 (N.land i 15) 0
        (bin_data ++ [byte_of_N (N.lor (N.shiftl leftchar 2) (N.shiftr i 4))])
  | 2%nat =>
      a2b_loop rest 3 (N.land i 3) 0
        (bin_data ++ [byte_of_N (N.lor (N.shiftl leftchar 4) (N.shiftr i 2))])
  | _ =>
      a2b_loop rest 0 0 0
        (bin_data ++ [byte_of_N (N.lor (N.shiftl leftchar 6) i)])
  end.
Proof.
  intros Hi. destruct (table_round_trip i Hi) as [Ht Hp].
  cbn [a2b_loop]. rewrite Hp, Ht. reflexivity.
Qed.

(** A padding character ends the input once it completes the quad, and is
    counted before that. *)
Lemma a2b_loop_pad (rest : list byte) (quad_pos : nat) (leftchar : N)
    (pads : nat) (bin_data : list byte) :
  a2b_loop (BASE64_PAD :: rest) quad_pos leftchar pads bin_data =
  if Nat.leb 2 quad_pos then
    if Nat.leb 4 (quad_pos + S pads) then Some bin_data
    else a2b_loop rest quad_pos leftchar (S pads) bin_data
  else a2b_loop rest quad_pos leftchar pads bin_data.
Proof. reflexivity. Qed.

(** A full quad gives back its three bytes and leaves the loop where it
    started. *)
Lemma a2b_loop_quad (b0 b1 b2 : byte) (rest bin_data : list byte) :
  a2b_loop (b2a_base64 (b0 :: b1 :: b2 :: [])%list ++ rest) 0 0 0 bin_data =
  a2b_loop rest 0 0 0 (bin_data ++ [b0; b1; b2]).
Proof.
  destruct (first_byte_facts b0 b1) as (H0 & H1 & E0 & L1).
  destruct (second_byte_facts b1 b2) as (H2 & H3 & E1 & L2 & E2).
  cbn [b2a_base64 app]. fold (sextet1 (Byte.to_N b0) (Byte.to_N b1)).
  fold (sextet2 (Byte.to_N b1) (Byte.to_N b2)).
  rewrite !a2b_loop_sextet by assumption.
  rewrite E0, L1, E1, L2, E2.
  now rewrite <- !app_assoc.
Qed.

Lemma b2a_base64_cons3 (b0 b1 b2 : byte) (rest : list byte) :
  b2a_base64 (b0 :: b1 :: b2 :: rest) =
  (b2a_base64 (b0 :: b1 :: b2 :: []) ++ b2a_base64 rest)%list.
Proof. reflexivity. Qed.

(** With no byte following, the last character of a short group carries
    zero bits in its low end. *)
Lemma sextet1_last (n0 : N) :
  sextet1 n0 (Byte.to_N x00) = N.shiftl (N.land n0 3) 4.
Proof.
  unfold sextet1. change (Byte.to_N x00) with 0.
  now rewrite N.shiftr_0_l, N.lor_0_r.
Qed.

Lemma sextet2_last (n1 : N) :
  sextet2 n1 (Byte.to_N x00) = N.shiftl (N.land n1 15) 2.
Proof.
  unfold sextet2. change (Byte.to_N x00) with 0.
  now rewrite N.shiftr_0_l, N.lor_0_r.
Qed.

Lemma a2b_loop_b2a (n : nat) :
  forall data bin_data,
    (length data <= n)%nat ->
    a2b_loop (b2a_base64 data) 0 0 0 bin_data = Some (bin_data ++ data)%list.
Proof.
  induction n as [|n IH]; intros data bin_data Hlen.
  - destruct data; [|simpl in Hlen; lia]. simpl. now rewrite app_nil_r.
  - destruct data as [|b0 [|b1 [|b2 rest]]].
    + simpl. now rewrite app_nil_r.
    + destruct (first_byte_facts b0 x00) as (H0 & H1 & E0 & _).
      cbn [b2a_base64].
      rewrite <- sextet1_last.
      rewrite !a2b_loop_sextet by assumption.
      rewrite E0, !a2b_loop_pad. reflexivity.
    + destruct (first_byte_facts b0 b1) as (H0 & H1 & E0 & L1).
      destruct (second_byte_facts b1 x00) as (H2 & _ & E1 & _).
      cbn [b2a_base64]. fold (sextet1 (Byte.to_N b0) (Byte.to_N b1)).
      rewrite <- sextet2_last.
      rewrite !a2b_loop_sextet by assumption.
      rewrite E0, L1, E1, a2b_loop_pad. cbn.
      now rewrite <- app_assoc.
    + rewrite b2a_base64_cons3, a2b_loop_quad.
      rewrite IH by (simpl in Hlen; lia).
      now rewrite <- app_assoc.
Qed.

Lemma a2b_b2a_base64 (data : list byte) :
  a2b_base64 (b2a_base64 data) = Some data.
Proof. unfold a2b_base64. now rewrite (a2b_loop_b2a (length data)). Qed.

Lemma nth_forallb {A} (P : A -> bool) (l : list A) (d : A) (k : nat) :
  forallb P l = true -> P d = true -> P (nth k l d) = true.
Proof.
  revert k. induction l as [|a l IH]; intros [|k] Hl Hd; simpl in *; trivial.
  - now apply andb_prop in Hl.
  - apply andb_prop in Hl as [_ Hl]. now apply IH.
Qed.

Lemma table_b2a_ascii (i : N) : is_ascii (table_b2a_base64 i) = true.
Proof. unfold table_b2a_base64. now apply nth_forallb. Qed.

Lemma b2a_base64_ascii (n : nat) :
  forall data, (length data <= n)%nat -> forallb is_ascii (b2a_base64 data) = true.
Proof.
  induction n as [|n IH]; intros data Hlen.
  - destruct data; [reflexivity | simpl in Hlen; lia].
  - destruct data as [|b0 [|b1 [|b2 rest]]]; cbn [b2a_base64 forallb];
      rewrite ?table_b2a_ascii; try reflexivity.
    apply IH. simpl in Hlen. lia.
Qed.

(** The output of [b64encode] is ASCII, so that decoding it as UTF-8 cannot
    fail and maps every byte to the character of the same code. *)
Lemma b64encode_ascii (data : list byte) :
  forallb is_ascii (b64encode data) = true.
Proof. apply (b2a_base64_ascii (length data)). lia. Qed.

Lemma b64decode_b64encode (data : list byte) :
  b64decode (decode_utf8 (b64encode data)) = Some data.
Proof.
  unfold b64decode, decode_utf8.
  rewrite list_byte_of_string_of_list_byte, b64encode_ascii.
  apply a2b_b2a_base64.
Qed.

End Base64_round_trip.

(** ** The Image Processor: what one run does *)

Section Image_processor_runs.

Context `{Interpreter} `{Libraries}.

Import ImageProcessor.

Ltac run_py :=
  unfold process_image, mbind, py_bind, mret, py_ret, mthrow, py_throw,
    invoke, print, try_except;
  repeat (cbv beta iota zeta;
          match goal with
          | E : ?call = inr _ |- context [?call] => rewrite E
          | E : ?call = inl _ |- context [?call] => rewrite E
          end);
  cbv beta iota zeta.

Lemma int_returns (s : string) (n : Z) (w : world) :
  parse_int s = Some n -> int s w = (Ok n, w).
Proof. intros E. unfold int. now rewrite E. Qed.

Lemma int_raises (s : string) (w : world) :
  parse_int s = None ->
  int s w = (Raise (Exn "ValueError" (invalid_literal s)), w).
Proof. intros E. unfold int. now rewrite E. Qed.

(** Each library call returns or raises, so a pipeline either completes or
    raises. *)
Lemma completes_or_raises (image_url : string) (width height : Z) :
  (exists jpeg, completes image_url width height jpeg) \/
  (exists e, raises image_url width height e).
Proof.
  destruct (requests_get image_url) as [e|response] eqn:E1;
    [right; exists e; now apply raises_get|].
  destruct (raise_for_status response) as [e|[]] eqn:E2;
    [right; exists e; now apply (raises_status _ _ _ _ response)|].
  destruct (Image_open (content response)) as [e|img0] eqn:E3;
    [right; exists e; now apply (raises_open _ _ _ _ response)|].
  destruct (Image_resize img0 (width, height)) as [e|img1] eqn:E4;
    [right; exists e; now apply (raises_resize _ _ _ _ response img0)|].
  destruct (ImageOps_grayscale img1) as [e|img2] eqn:E5;
    [right; exists e; now apply (raises_grayscale _ _ _ _ response img0 img1)|].
  destruct (Image_filter img2 (GaussianBlur 2)) as [e|img3] eqn:E6;
    [right; exists e; now apply (raises_blur _ _ _ _ response img0 img1 img2)|].
  destruct (Image_save img3 "JPEG") as [e|jpeg] eqn:E7;
    [right; exists e; now apply (raises_save _ _ _ _ response img0 img1 img2 img3)|].
  left. exists jpeg, response, img0, img1, img2, img3. tauto.
Qed.

(** A pipeline in which nothing raises makes the eight calls in order and
    prints the success document. *)
Lemma process_image_completes (image_url : string) (width height : Z)
    (jpeg : list byte) (w : world) :
  completes image_url width height jpeg ->
  process_image image_url width height w =
  (Ok tt,
   World (stdout w ++
            [dumps None (success_response image_url
                           (decode_utf8 (b64encode jpeg)) width height)])
         (calls w ++ pipeline_calls image_url width height)).
Proof.
  intros (response & img0 & img1 & img2 & img3 & E1 & E2 & E3 & E4 & E5 & E6 & E7).
  run_py. unfold pipeline_calls. cbn [stdout calls].
  now rewrite <- !app_assoc.
Qed.

(** A pipeline in which a call raises stops there: the calls made are a
    proper start of the eight, and nothing has been printed. *)
Lemma process_image_raises (image_url : string) (width height : Z)
    (e : exn) (w : world) :
  raises image_url width height e ->
  exists made,
    process_image image_url width height w =
      (Raise e, World (stdout w) (calls w ++ made)) /\
    made `prefix_of` pipeline_calls image_url width height /\
    (length made < 8)%nat.
Proof.
  intros [E1|r E1 E2|r E1 E2 E3|r i0 E1 E2 E3 E4|r i0 i1 E1 E2 E3 E4 E5
         |r i0 i1 i2 E1 E2 E3 E4 E5 E6|r i0 i1 i2 i3 E1 E2 E3 E4 E5 E6 E7];
    run_py; cbn [stdout calls]; rewrite <- ?app_assoc;
    (eexists; split; [reflexivity|]);
    (split; [eexists; reflexivity | simpl; lia]).
Qed.

Section One_environment.

Variable env : gmap string string.

Local Abbreviation image_url := (environ_get env "IMAGE_URL" default_image_url).
Local Abbreviation width_text := (environ_get env "WIDTH" "300").
Local Abbreviation height_text := (environ_get env "HEIGHT" "300").

(** [int] on [WIDTH] raises before anything else happens. *)
Lemma main_width_raises :
  parse_int width_text = None ->
  run_script (main env) =
  Process [] (Some (Exn "ValueError" (invalid_literal width_text))) 1 [].
Proof.
  intros Ew. unfold run_script, main, mbind, py_bind.
  now rewrite (int_raises _ _ Ew).
Qed.

(** So does [int] on [HEIGHT], once [WIDTH] has been read. *)
Lemma main_height_raises (width : Z) :
  parse_int width_text = Some width ->
  parse_int height_text = None ->
  run_script (main env) =
  Process [] (Some (Exn "ValueError" (invalid_literal height_text))) 1 [].
Proof.
  intros Ew Eh. unfold run_script, main, mbind, py_bind.
  now rewrite (int_returns _ _ _ Ew), (int_raises _ _ Eh).
Qed.

Lemma main_parse_failure :
  parse_int width_text = None \/ parse_int height_text = None ->
  exists literal,
    run_script (main env) =
    Process [] (Some (Exn "ValueError" (invalid_literal literal))) 1 [].
Proof.
  intros Hfail.
  destruct (parse_int width_text) as [width|] eqn:Ew.
  - destruct Hfail as [|Eh]; [discriminate|].
    exists height_text. now apply (main_height_raises width).
  - exists width_text. now apply main_width_raises.
Qed.

(** Both numbers read and the address empty: the explicit error document,
    and no library call. *)
Lemma main_no_url (width height : Z) :
  parse_int width_text = Some width ->
  parse_int height_text = Some height ->
  image_url = EmptyString ->
  run_script (main env) =
  Process [dumps None (error_response "No image URL provided")] None 0 [].
Proof.
  intros Ew Eh Eu. unfold run_script, main, mbind, py_bind.
  rewrite (int_returns _ _ _ Ew), (int_returns _ _ _ Eh), Eu.
  reflexivity.
Qed.

(** Both numbers read, an address given, and a library call raises: the
    handler prints the error document and the script ends normally. *)
Lemma main_raises (width height : Z) (e : exn) :
  parse_int width_text = Some width ->
  parse_int height_text = Some height ->
  image_url <> EmptyString ->
  raises image_url width height e ->
  exists made,
    run_script (main env) =
      Process [dumps None (error_response (exn_str e))] None 0 made /\
    made `prefix_of` pipeline_calls image_url width height /\
    (length made < 8)%nat.
Proof.
  intros Ew Eh Eu Hr.
  destruct (process_image_raises _ _ _ _ init_world Hr) as (made & Ep & Hpre & Hlen).
  exists made. split; [|now split].
  unfold run_script, main, mbind, py_bind.
  rewrite (int_returns _ _ _ Ew), (int_returns _ _ _ Eh).
  destruct image_url as [|c rest] eqn:Ei; [congruence|].
  cbn [truthy negb]. unfold try_except. rewrite Ep. reflexivity.
Qed.

(** Both numbers read, an address given, and no call raises: the success
    document, after the eight calls. *)
Lemma main_completes (width height : Z) (jpeg : list byte) :
  parse_int width_text = Some width ->
  parse_int height_text = Some height ->
  image_url <> EmptyString ->
  completes image_url width height jpeg ->
  run_script (main env) =
  Process [dumps None (success_response image_url
                         (decode_utf8 (b64encode jpeg)) width height)]
          None 0 (pipeline_calls image_url width height).
Proof.
  intros Ew Eh Eu Hc.
  pose proof (process_image_completes _ _ _ _ init_world Hc) as Ep.
  unfold run_script, main, mbind, py_bind.
  rewrite (int_returns _ _ _ Ew), (int_returns _ _ _ Eh).
  destruct image_url as [|c rest] eqn:Ei; [congruence|].
  cbn [truthy negb]. unfold try_except. rewrite Ep. reflexivity.
Qed.

End One_environment.

End Image_processor_runs.

(** ** Texts *)

#[local] Arguments String.append !_ _ / : simpl nomatch.

Lemma append_assoc (a b c : string) : (a +:+ b) +:+ c = a +:+ b +:+ c.
Proof. induction a as [|x a IH]; cbn [String.append]; [reflexivity | now f_equal]. Qed.

(** Two texts built from the same pieces are equal whatever the grouping of
    the concatenations. *)
Ltac eval_literals :=
  repeat match goal with
         | |- context [encode_basestring_ascii (String ?c ?s)] =>
             let v := eval vm_compute in (encode_basestring_ascii (String c s)) in
             change (encode_basestring_ascii (String c s)) with v
         | |- context [quoted (String ?c ?s)] =>
             let v := eval vm_compute in (quoted (String c s)) in
             change (quoted (String c s)) with v
         end.

Ltac normalize_text :=
  try unfold ImageProcessor.error_response;
  try unfold ImageProcessor.success_response;
  unfold dumps;
  cbn [iterencode container map join fst snd newline_indent item_separator
       key_separator spaces Nat.mul Nat.add];
  unfold key_separator;
  eval_literals;
  unfold encode_basestring_ascii, quoted, str1;
  cbn [String.append];
  repeat (rewrite !append_assoc; cbn [String.append]);
  reflexivity.

(** ** The Greeter *)

Section Greeter_properties.

Context `{Interpreter}.

(** C3, as the script has it: the message is ["Hello, " + n + "!"] for the
    value [n] of [NAME] whenever [NAME] is set, the empty value included, and
    ["Hello, World!"] when [NAME] is not set.  The document so built is both
    printed and returned. *)
Theorem greeter_message (env : gmap string string) :
  exists response,
    Greeter.main env init_world =
      (Ok response, World [dumps (Some 2%nat) response] []) /\
    jget "message" response =
      Some (JStr match env !! "NAME" with
                 | Some n => "Hello, " +:+ n +:+ "!"
                 | None => "Hello, World!"
                 end).
Proof.
  eexists. split; [reflexivity|].
  unfold environ_get. destruct (env !! "NAME"); reflexivity.
Qed.

(** C4, as the script has it: one document is printed, indented by two
    spaces per level; its keys are [message], [timestamp] and [environment],
    in this order; [environment] holds [python_version] and [platform], read
    from the interpreter; [timestamp] is the same literal for every
    environment and interpreter. *)
Theorem greeter_document (env : gmap string string) :
  exists response environment,
    Greeter.main env init_world =
      (Ok response, World [dumps (Some 2%nat) response] []) /\
    keys response = ["message"; "timestamp"; "environment"] /\
    jget "timestamp" response = Some (JStr "2023-01-16T12:34:56Z") /\
    jget "environment" response = Some environment /\
    environment = JDict [("python_version", JStr sys_version);
                         ("platform", JStr sys_platform)] /\
    dumps (Some 2%nat) response =
      "{" +:+ str1 newline
      +:+ "  " +:+ quoted "message" +:+ ": "
      +:+ encode_basestring_ascii
            ("Hello, " +:+ environ_get env "NAME" "World" +:+ "!")
      +:+ "," +:+ str1 newline
      +:+ "  " +:+ quoted "timestamp" +:+ ": "
      +:+ quoted "2023-01-16T12:34:56Z" +:+ "," +:+ str1 newline
      +:+ "  " +:+ quoted "environment" +:+ ": {" +:+ str1 newline
      +:+ "    " +:+ quoted "python_version" +:+ ": "
      +:+ encode_basestring_ascii sys_version +:+ "," +:+ str1 newline
      +:+ "    " +:+ quoted "platform" +:+ ": "
      +:+ encode_basestring_ascii sys_platform +:+ str1 newline
      +:+ "  }" +:+ str1 newline +:+ "}".
Proof.
  do 2 eexists. split; [reflexivity|].
  repeat split.
  normalize_text.
Qed.

End Greeter_properties.

(** With [NAME] set to the empty string the greeting is ["Hello, !"], not
    ["Hello, World!"]: the default is used only when [NAME] is absent. *)
Lemma greeter_empty_name_counterexample :
  ({[ "NAME" := EmptyString ]} : gmap string string) !! "NAME" = Some EmptyString /\
  exists response,
    Greeter.main (H := Sample.interpreter) {[ "NAME" := EmptyString ]} init_world =
      (Ok response, World [dumps (Some 2%nat) response] []) /\
    jget "message" response = Some (JStr "Hello, !") /\
    jget "message" response <> Some (JStr "Hello, World!").
Proof.
  split; [reflexivity|].
  eexists. split; [reflexivity|]. split; [reflexivity|]. discriminate.
Qed.

(** The inner document has no key [runtime_version]: the key is
    [python_version]. *)
Lemma greeter_runtime_version_counterexample :
  exists response environment,
    Greeter.main (H := Sample.interpreter) ∅ init_world =
      (Ok response, World [dumps (Some 2%nat) response] []) /\
    jget "environment" response = Some environment /\
    keys environment = ["python_version"; "platform"] /\
    jget "runtime_version" environment = None /\
    keys environment <> ["runtime_version"; "platform"].
Proof.
  do 2 eexists. split; [reflexivity|]. split; [reflexivity|].
  split; [reflexivity|]. split; [reflexivity|]. discriminate.
Qed.

(** ** The Image Processor *)

Section Image_processor_properties.

Context `{Interpreter} `{Libraries}.

Import ImageProcessor.

(** The two kinds of document differ in their [status], and already in
    their first key, so that their texts differ. *)
Lemma error_response_status (message : string) :
  jget "status" (error_response message) = Some (JStr "error").
Proof. reflexivity. Qed.

Lemma success_response_status (image_url img_str : string) (width height : Z) :
  jget "status" (success_response image_url img_str width height) =
  Some (JStr "success").
Proof. reflexivity. Qed.

Lemma error_text_is_not_success_text (message image_url img_str : string)
    (width height : Z) :
  dumps None (error_response message) <>
  dumps None (success_response image_url img_str width height).
Proof. cbn. discriminate. Qed.

(** Every run is of one of three kinds: an uncaught [ValueError] with
    nothing printed; one error document; one success document.  The last
    happens exactly when both numbers are read, the address is not empty and
    no library call raises. *)
Lemma main_outcome (env : gmap string string) :
  (exists literal,
     run_script (main env) =
     Process [] (Some (Exn "ValueError" (invalid_literal literal))) 1 []) \/
  (exists message made,
     run_script (main env) =
     Process [dumps None (error_response message)] None 0 made) \/
  (exists width height jpeg,
     parse_int (environ_get env "WIDTH" "300") = Some width /\
     parse_int (environ_get env "HEIGHT" "300") = Some height /\
     completes (environ_get env "IMAGE_URL" default_image_url) width height jpeg /\
     run_script (main env) =
     Process [dumps None (success_response
                            (environ_get env "IMAGE_URL" default_image_url)
                            (decode_utf8 (b64encode jpeg)) width height)]
             None 0
             (pipeline_calls (environ_get env "IMAGE_URL" default_image_url)
                width height)).
Proof.
  destruct (parse_int (environ_get env "WIDTH" "300")) as [width|] eqn:Ew;
    [|left; apply main_parse_failure; now left].
  destruct (parse_int (environ_get env "HEIGHT" "300")) as [height|] eqn:Eh;
    [|left; apply main_parse_failure; now right].
  right.
  destruct (decide (environ_get env "IMAGE_URL" default_image_url = EmptyString))
    as [Eu|Hne].
  - left. exists "No image URL provided", []. now apply (main_no_url env width height).
  - destruct (completes_or_raises
                (environ_get env "IMAGE_URL" default_image_url) width height)
      as [[jpeg Hc]|[e Hr]].
    + right. exists width, height, jpeg.
      repeat split; trivial. now apply main_completes.
    + left.
      destruct (main_raises env width height e Ew Eh Hne Hr) as (made & Ep & _).
      now exists (exn_str e), made.
Qed.

Section Claims.

Variable env : gmap string string.

Local Abbreviation image_url := (environ_get env "IMAGE_URL" default_image_url).
Local Abbreviation width_text := (environ_get env "WIDTH" "300").
Local Abbreviation height_text := (environ_get env "HEIGHT" "300").

(** C1, on the script as it is: when [WIDTH] or [HEIGHT] is set to a text
    that [int] rejects, such as ["abc"], the [ValueError] is raised outside
    the [try] statement.  Nothing is printed, no library is called, and the
    interpreter ends with a traceback and exit status 1: the failure does not
    reach the handler that prints the error document. *)
Theorem unparsable_size_is_not_reported (s : string) :
  env !! "WIDTH" = Some s \/ env !! "HEIGHT" = Some s ->
  parse_int s = None ->
  exists literal,
    run_script (main env) =
    Process [] (Some (Exn "ValueError" (invalid_literal literal))) 1 [].
Proof.
  intros Hset Es. apply main_parse_failure.
  unfold environ_get. destruct Hset as [-> | ->]; auto.
Qed.

(** C2, on the script as it is: with [WIDTH] set to ["abc"] and whatever
    the libraries would do, the run prints no document at all and ends with
    exit status 1. *)
Theorem no_document_when_width_is_abc :
  proc_stdout (run_script (main {[ "WIDTH" := "abc" ]})) = [] /\
  proc_exit (run_script (main {[ "WIDTH" := "abc" ]})) = 1.
Proof.
  rewrite main_width_raises by reflexivity. split; reflexivity.
Qed.

(** C5: when a library call of the pipeline raises [e], the handler prints
    one compact document whose keys are exactly [error], bound to [str(e)],
    and [status], bound to ["error"]; there is no [processed_image]; nothing
    goes to standard error and the exit status is 0. *)
Theorem pipeline_exception_is_reported (width height : Z) (e : exn) :
  parse_int width_text = Some width ->
  parse_int height_text = Some height ->
  image_url <> EmptyString ->
  raises image_url width height e ->
  exists document,
    proc_stdout (run_script (main env)) = [dumps None document] /\
    document = JDict [("error", JStr (exn_str e)); ("status", JStr "error")] /\
    keys document = ["error"; "status"] /\
    jget "processed_image" document = None /\
    proc_stderr (run_script (main env)) = None /\
    proc_exit (run_script (main env)) = 0 /\
    dumps None document =
      "{" +:+ quoted "error" +:+ ": " +:+ encode_basestring_ascii (exn_str e)
      +:+ ", " +:+ quoted "status" +:+ ": " +:+ quoted "error" +:+ "}".
Proof.
  intros Ew Eh Eu Hr.
  destruct (main_raises env width height e Ew Eh Eu Hr) as (made & Ep & _).
  eexists. rewrite Ep. split; [reflexivity|].
  repeat split. normalize_text.
Qed.

(** C6: when no call raises, the one line printed is the compact text of a
    document with [original_url] bound to the resolved [IMAGE_URL],
    [processed_image] to the base64 text of the JPEG bytes, [transformations]
    to the list [resize], [grayscale], [blur], [dimensions] to the width and
    height read from the environment, and [status] to ["success"]. *)
Theorem success_document (width height : Z) (jpeg : list byte) :
  parse_int width_text = Some width ->
  parse_int height_text = Some height ->
  image_url <> EmptyString ->
  completes image_url width height jpeg ->
  exists response,
    proc_stdout (run_script (main env)) = [dumps None response] /\
    keys response = ["original_url"; "processed_image"; "transformations";
                     "dimensions"; "status"] /\
    jget "original_url" response = Some (JStr image_url) /\
    jget "processed_image" response =
      Some (JStr (decode_utf8 (b64encode jpeg))) /\
    jget "transformations" response =
      Some (JList [JStr "resize"; JStr "grayscale"; JStr "blur"]) /\
    jget "dimensions" response =
      Some (JDict [("width", JInt width); ("height", JInt height)]) /\
    jget "status" response = Some (JStr "success") /\
    dumps None response =
      "{" +:+ quoted "original_url" +:+ ": "
      +:+ encode_basestring_ascii image_url +:+ ", "
      +:+ quoted "processed_image" +:+ ": "
      +:+ encode_basestring_ascii (decode_utf8 (b64encode jpeg)) +:+ ", "
      +:+ quoted "transformations" +:+ ": ["
      +:+ quoted "resize" +:+ ", " +:+ quoted "grayscale" +:+ ", "
      +:+ quoted "blur" +:+ "], "
      +:+ quoted "dimensions" +:+ ": {"
      +:+ quoted "width" +:+ ": " +:+ pretty width +:+ ", "
      +:+ quoted "height" +:+ ": " +:+ pretty height +:+ "}, "
      +:+ quoted "status" +:+ ": " +:+ quoted "success" +:+ "}".
Proof.
  intros Ew Eh Eu Hc.
  rewrite (main_completes env width height jpeg Ew Eh Eu Hc).
  eexists. split; [reflexivity|].
  repeat split.
  normalize_text.
Qed.

(** C7: in a run in which no call raises, the libraries are called in this
    order and none is left out: download, status check, decoding, [resize]
    with exactly the pair [(width, height)] read from the environment,
    [grayscale] on the resized image, [GaussianBlur] of radius 2 on the gray
    one, saving as JPEG, base64 encoding; and the text printed carries the
    base64 text of the JPEG bytes of the blurred image. *)
Theorem pipeline_order (width height : Z) (response : Response)
    (img0 img1 img2 img3 : Image) (jpeg : list byte) :
  parse_int width_text = Some width ->
  parse_int height_text = Some height ->
  image_url <> EmptyString ->
  requests_get image_url = inr response ->
  raise_for_status response = inr tt ->
  Image_open (content response) = inr img0 ->
  Image_resize img0 (width, height) = inr img1 ->
  ImageOps_grayscale img1 = inr img2 ->
  Image_filter img2 (GaussianBlur 2) = inr img3 ->
  Image_save img3 "JPEG" = inr jpeg ->
  proc_calls (run_script (main env)) =
    [CallGet image_url; CallRaiseForStatus; CallImageOpen;
     CallResize width height; CallGrayscale; CallGaussianBlur 2;
     CallSave "JPEG"; CallB64encode] /\
  exists response,
    proc_stdout (run_script (main env)) = [dumps None response] /\
    jget "processed_image" response =
      Some (JStr (decode_utf8 (b64encode jpeg))) /\
    jget "status" response = Some (JStr "success").
Proof.
  intros Ew Eh Eu E1 E2 E3 E4 E5 E6 E7.
  assert (completes image_url width height jpeg) as Hc
    by (exists response, img0, img1, img2, img3; tauto).
  rewrite (main_completes env width height jpeg Ew Eh Eu Hc).
  split; [reflexivity|].
  eexists. split; [reflexivity|]. split; reflexivity.
Qed.

(** C8: with both numbers read and the resolved [IMAGE_URL] empty, the run
    prints exactly the document with [error] bound to
    ["No image URL provided"] and [status] to ["error"], calls no library,
    so makes no network access, and returns normally. *)
Theorem missing_url_is_reported (width height : Z) :
  parse_int width_text = Some width ->
  parse_int height_text = Some height ->
  image_url = EmptyString ->
  run_script (main env) =
    Process [dumps None (JDict [("error", JStr "No image URL provided");
                                ("status", JStr "error")])]
            None 0 [] /\
  dumps None (JDict [("error", JStr "No image URL provided");
                     ("status", JStr "error")]) =
    "{" +:+ quoted "error" +:+ ": " +:+ quoted "No image URL provided"
    +:+ ", " +:+ quoted "status" +:+ ": " +:+ quoted "error" +:+ "}".
Proof.
  intros Ew Eh Eu. split; [|reflexivity].
  now apply (main_no_url env width height).
Qed.

(** C9: in a run in which no call raises, the printed document has
    [status] ["success"] and its [processed_image] decodes from base64, to
    the very JPEG bytes that the save step produced. *)
Theorem processed_image_decodes (width height : Z) (jpeg : list byte) :
  parse_int width_text = Some width ->
  parse_int height_text = Some height ->
  image_url <> EmptyString ->
  completes image_url width height jpeg ->
  exists response payload,
    proc_stdout (run_script (main env)) = [dumps None response] /\
    jget "status" response = Some (JStr "success") /\
    jget "processed_image" response = Some (JStr payload) /\
    b64decode payload = Some jpeg.
Proof.
  intros Ew Eh Eu Hc.
  rewrite (main_completes env width height jpeg Ew Eh Eu Hc).
  do 2 eexists. split; [reflexivity|]. split; [reflexivity|].
  split; [reflexivity|]. apply b64decode_b64encode.
Qed.

(** C10: the two numbers are read before the address is looked at.  With
    [IMAGE_URL] set to the empty string, a [WIDTH] or [HEIGHT] that [int]
    rejects ends the run with the uncaught [ValueError] and nothing printed;
    the document of the missing address is printed exactly when both numbers
    are read. *)
Theorem parse_precedes_url_check :
  env !! "IMAGE_URL" = Some EmptyString ->
  (parse_int width_text = None \/ parse_int height_text = None ->
   exists literal,
     run_script (main env) =
     Process [] (Some (Exn "ValueError" (invalid_literal literal))) 1 []) /\
  (proc_stdout (run_script (main env)) =
     [dumps None (error_response "No image URL provided")] <->
   exists width height,
     parse_int width_text = Some width /\ parse_int height_text = Some height).
Proof.
  intros Hurl.
  assert (image_url = EmptyString) as Eu
    by (unfold environ_get; now rewrite Hurl).
  split; [apply main_parse_failure|].
  split.
  - intros Hout.
    destruct (parse_int width_text) as [width|] eqn:Ew.
    + destruct (parse_int height_text) as [height|] eqn:Eh; [now eauto|].
      rewrite (main_height_raises env width Ew Eh) in Hout. discriminate.
    + rewrite (main_width_raises env Ew) in Hout. discriminate.
  - intros (width & height & Ew & Eh).
    now rewrite (main_no_url env width height Ew Eh Eu).
Qed.

End Claims.

End Image_processor_properties.

(** ** The theorems at work on the sample interpreter and libraries

    Each lemma below instantiates one theorem on a concrete environment:
    [WIDTH] set to ["abc"]; an address answering 404; a picture fetched and
    processed at 100 by 150; an empty address. *)

Section Samples.

Import ImageProcessor.

#[local] Existing Instance Sample.interpreter.
#[local] Existing Instance Sample.libraries.

Lemma unparsable_size_is_not_reported_witness :
  exists literal,
    run_script (main {[ "WIDTH" := "abc" ]}) =
    Process [] (Some (Exn "ValueError" (invalid_literal literal))) 1 [].
Proof.
  apply (unparsable_size_is_not_reported {[ "WIDTH" := "abc" ]} "abc").
  - left. reflexivity.
  - reflexivity.
Defined.

Lemma sample_raises :
  raises Sample.missing_url 300 300 Sample.not_found.
Proof. now apply (raises_status (H0 := Sample.libraries) _ _ _ _ (404, [])). Qed.

Lemma sample_completes :
  completes Sample.cat_url 100 150 Sample.cat_jpeg.
Proof. unfold completes. cbn. exists (200, Sample.cat_png). now repeat eexists. Qed.

Lemma pipeline_exception_is_reported_witness :
  exists document,
    proc_stdout (run_script (main {[ "IMAGE_URL" := Sample.missing_url ]})) =
      [dumps None document] /\
    document = JDict [("error", JStr (exn_str Sample.not_found)); ("status", JStr "error")] /\
    keys document = ["error"; "status"] /\
    jget "processed_image" document = None /\
    proc_stderr (run_script (main {[ "IMAGE_URL" := Sample.missing_url ]})) = None /\
    proc_exit (run_script (main {[ "IMAGE_URL" := Sample.missing_url ]})) = 0 /\
    dumps None document =
      "{" +:+ quoted "error" +:+ ": " +:+ encode_basestring_ascii (exn_str Sample.not_found)
      +:+ ", " +:+ quoted "status" +:+ ": " +:+ quoted "error" +:+ "}".
Proof.
  apply (pipeline_exception_is_reported
           {[ "IMAGE_URL" := Sample.missing_url ]} 300 300 Sample.not_found).
  - reflexivity.
  - reflexivity.
  - discriminate.
  - exact sample_raises.
Defined.

Lemma success_document_witness :
  exists response,
    proc_stdout (run_script (main Sample.cat_env)) = [dumps None response] /\
    keys response = ["original_url"; "processed_image"; "transformations";
                     "dimensions"; "status"] /\
    jget "original_url" response = Some (JStr Sample.cat_url) /\
    jget "processed_image" response =
      Some (JStr (decode_utf8 (b64encode Sample.cat_jpeg))) /\
    jget "transformations" response =
      Some (JList [JStr "resize"; JStr "grayscale"; JStr "blur"]) /\
    jget "dimensions" response =
      Some (JDict [("width", JInt 100); ("height", JInt 150)]) /\
    jget "status" response = Some (JStr "success") /\
    dumps None response =
      "{" +:+ quoted "original_url" +:+ ": "
      +:+ encode_basestring_ascii Sample.cat_url +:+ ", "
      +:+ quoted "processed_image" +:+ ": "
      +:+ encode_basestring_ascii (decode_utf8 (b64encode Sample.cat_jpeg)) +:+ ", "
      +:+ quoted "transformations" +:+ ": ["
      +:+ quoted "resize" +:+ ", " +:+ quoted "grayscale" +:+ ", "
      +:+ quoted "blur" +:+ "], "
      +:+ quoted "dimensions" +:+ ": {"
      +:+ quoted "width" +:+ ": " +:+ pretty 100 +:+ ", "
      +:+ quoted "height" +:+ ": " +:+ pretty 150 +:+ "}, "
      +:+ quoted "status" +:+ ": " +:+ quoted "success" +:+ "}".
Proof.
  apply (success_document Sample.cat_env 100 150 Sample.cat_jpeg).
  - reflexivity.
  - reflexivity.
  - discriminate.
  - exact sample_completes.
Defined.

Lemma pipeline_order_witness :
  proc_calls (run_script (main Sample.cat_env)) =
    [CallGet Sample.cat_url; CallRaiseForStatus; CallImageOpen;
     CallResize 100 150; CallGrayscale; CallGaussianBlur 2;
     CallSave "JPEG"; CallB64encode] /\
  exists response,
    proc_stdout (run_script (main Sample.cat_env)) = [dumps None response] /\
    jget "processed_image" response =
      Some (JStr (decode_utf8 (b64encode Sample.cat_jpeg))) /\
    jget "status" response = Some (JStr "success").
Proof.
  apply (pipeline_order (H := Sample.interpreter) (H0 := Sample.libraries)
           Sample.cat_env 100 150
           (200, Sample.cat_png)
           (Sample.Picture (4, 2) "RGB" Sample.cat_png)
           (Sample.Picture (100, 150) "RGB" Sample.cat_png)
           (Sample.Picture (100, 150) "L" Sample.cat_png)
           (Sample.Picture (100, 150) "L" Sample.cat_png)
           Sample.cat_jpeg);
    solve [reflexivity | discriminate].
Defined.

Lemma missing_url_is_reported_witness :
  run_script (main {[ "IMAGE_URL" := EmptyString ]}) =
    Process [dumps None (JDict [("error", JStr "No image URL provided");
                                ("status", JStr "error")])]
            None 0 [] /\
  dumps None (JDict [("error", JStr "No image URL provided");
                     ("status", JStr "error")]) =
    "{" +:+ quoted "error" +:+ ": " +:+ quoted "No image URL provided"
    +:+ ", " +:+ quoted "status" +:+ ": " +:+ quoted "error" +:+ "}".
Proof.
  apply (missing_url_is_reported {[ "IMAGE_URL" := EmptyString ]} 300 300);
    reflexivity.
Defined.

Lemma processed_image_decodes_witness :
  exists response payload,
    proc_stdout (run_script (main Sample.cat_env)) = [dumps None response] /\
    jget "status" response = Some (JStr "success") /\
    jget "processed_image" response = Some (JStr payload) /\
    b64decode payload = Some Sample.cat_jpeg.
Proof.
  apply (processed_image_decodes Sample.cat_env 100 150 Sample.cat_jpeg).
  - reflexivity.
  - reflexivity.
  - discriminate.
  - exact sample_completes.
Defined.

Lemma parse_precedes_url_check_witness :
  (parse_int (environ_get Sample.no_url_env "WIDTH" "300") = None \/
   parse_int (environ_get Sample.no_url_env "HEIGHT" "300") = None ->
   exists literal,
     run_script (main Sample.no_url_env) =
     Process [] (Some (Exn "ValueError" (invalid_literal literal))) 1 []) /\
  (proc_stdout (run_script (main Sample.no_url_env)) =
     [dumps None (error_response "No image URL provided")] <->
   exists width height,
     parse_int (environ_get Sample.no_url_env "WIDTH" "300") = Some width /\
     parse_int (environ_get Sample.no_url_env "HEIGHT" "300") = Some height).
Proof.
  apply (parse_precedes_url_check Sample.no_url_env). reflexivity.
Defined.
End Samples.

(** * Further properties of the two scripts *)

(** ** Exit status, defaults, and the order of the library calls *)

Section Image_processor_behaviour.

Context `{Interpreter} `{Libraries}.

Import ImageProcessor.

Ltac run_py :=
  unfold process_image, mbind, py_bind, mret, py_ret, mthrow, py_throw,
    invoke, print, try_except;
  repeat (cbv beta iota zeta;
          match goal with
          | E : ?call = inr _ |- context [?call] => rewrite E
          | E : ?call = inl _ |- context [?call] => rewrite E
          end);
  cbv beta iota zeta.

(** When a call raises, the calls made are the first [k] of the eight, the
    raising one being the last of them. *)
Lemma process_image_raises_take (image_url : string) (width height : Z)
    (e : exn) (w : world) :
  raises image_url width height e ->
  exists k,
    (1 <= k <= 7)%nat /\
    process_image image_url width height w =
      (Raise e,
       World (stdout w)
             (calls w ++ take k (pipeline_calls image_url width height))).
Proof.
  intros [E1|r E1 E2|r E1 E2 E3|r i0 E1 E2 E3 E4|r i0 i1 E1 E2 E3 E4 E5
         |r i0 i1 i2 E1 E2 E3 E4 E5 E6|r i0 i1 i2 i3 E1 E2 E3 E4 E5 E6 E7];
    [exists 1%nat|exists 2%nat|exists 3%nat|exists 4%nat|exists 5%nat
    |exists 6%nat|exists 7%nat];
    (split; [lia|]); run_py; cbn [stdout calls take pipeline_calls];
    rewrite <- ?app_assoc; reflexivity.
Qed.

Section One_environment.

Variable env : gmap string string.

Local Abbreviation image_url := (environ_get env "IMAGE_URL" default_image_url).
Local Abbreviation width_text := (environ_get env "WIDTH" "300").
Local Abbreviation height_text := (environ_get env "HEIGHT" "300").

Lemma main_raises_take (width height : Z) (e : exn) :
  parse_int width_text = Some width ->
  parse_int height_text = Some height ->
  image_url <> EmptyString ->
  raises image_url width height e ->
  exists k,
    (1 <= k <= 7)%nat /\
    run_script (main env) =
      Process [dumps None (error_response (exn_str e))] None 0
              (take k (pipeline_calls image_url width height)).
Proof.
  intros Ew Eh Eu Hr.
  destruct (process_image_raises_take _ _ _ _ init_world Hr) as (k & Hk & Ep).
  exists k. split; [exact Hk|].
  unfold run_script, main, mbind, py_bind.
  rewrite (int_returns _ _ _ Ew), (int_returns _ _ _ Eh).
  destruct image_url as [|c rest] eqn:Ei; [congruence|].
  cbn [truthy negb]. unfold try_except. rewrite Ep. reflexivity.
Qed.

(** Once both numbers are read the run prints one line and ends normally,
    whatever the libraries do. *)
Lemma main_parsed (width height : Z) :
  parse_int width_text = Some width ->
  parse_int height_text = Some height ->
  exists line made,
    run_script (main env) = Process [line] None 0 made.
Proof.
  intros Ew Eh.
  destruct (decide (image_url = EmptyString)) as [Eu|Eu].
  - do 2 eexists. now apply (main_no_url env width height).
  - destruct (completes_or_raises image_url width height) as [[jpeg Hc]|[e Hr]].
    + do 2 eexists. now apply (main_completes env width height jpeg).
    + destruct (main_raises env width height e Ew Eh Eu Hr) as (made & Ep & _).
      do 2 eexists. exact Ep.
Qed.

(** X1: the exit status is 0 exactly when [int] accepts both [WIDTH] and
    [HEIGHT].  Then exactly one line is printed, whether the library calls
    return or raise; otherwise the status is 1, nothing is printed and no
    library is called. *)
Theorem exit_status_tells_parse_failure :
  (proc_exit (run_script (main env)) = 0 <->
   exists width height,
     parse_int width_text = Some width /\ parse_int height_text = Some height) /\
  (proc_exit (run_script (main env)) = 0 ->
   exists line, proc_stdout (run_script (main env)) = [line]) /\
  (proc_exit (run_script (main env)) <> 0 ->
   proc_exit (run_script (main env)) = 1 /\
   proc_stdout (run_script (main env)) = [] /\
   proc_calls (run_script (main env)) = []).
Proof.
  destruct (parse_int width_text) as [width|] eqn:Ew.
  - destruct (parse_int height_text) as [height|] eqn:Eh.
    + destruct (main_parsed width height Ew Eh) as (line & made & Ep).
      rewrite Ep. cbn [proc_exit proc_stdout proc_calls].
      split; [split; [now eauto | reflexivity]|].
      split; [now eauto | intros Hne; now destruct Hne].
    + rewrite (main_height_raises env width Ew Eh).
      cbn [proc_exit proc_stdout proc_calls].
      split; [split; [discriminate | intros (w & h & _ & Hh); discriminate]|].
      split; [discriminate | now auto].
  - rewrite (main_width_raises env Ew).
    cbn [proc_exit proc_stdout proc_calls].
    split; [split; [discriminate | intros (w & h & Hw & _); discriminate]|].
    split; [discriminate | now auto].
Qed.

(** X2: with [WIDTH] and [HEIGHT] both unset the size is 300 by 300: the run
    cannot end with a traceback, and when no call raises the image is resized
    to [(300, 300)] and the document reports these dimensions. *)
Theorem default_size_is_300 :
  env !! "WIDTH" = None ->
  env !! "HEIGHT" = None ->
  proc_exit (run_script (main env)) = 0 /\
  forall jpeg,
    image_url <> EmptyString ->
    completes image_url 300 300 jpeg ->
    proc_calls (run_script (main env)) !! 3%nat = Some (CallResize 300 300) /\
    exists response,
      proc_stdout (run_script (main env)) = [dumps None response] /\
      jget "dimensions" response =
        Some (JDict [("width", JInt 300); ("height", JInt 300)]).
Proof.
  intros Hw Hh.
  assert (parse_int width_text = Some 300) as Ew
    by (unfold environ_get; now rewrite Hw).
  assert (parse_int height_text = Some 300) as Eh
    by (unfold environ_get; now rewrite Hh).
  split.
  - destruct (main_parsed 300 300 Ew Eh) as (line & made & Ep). now rewrite Ep.
  - intros jpeg Eu Hc.
    rewrite (main_completes env 300 300 jpeg Ew Eh Eu Hc).
    split; [reflexivity|]. eexists. split; reflexivity.
Qed.

(** X3: with both numbers read, no library is called exactly when
    [IMAGE_URL] is set to the empty string.  An unset [IMAGE_URL] stands for
    the default address, so that the check for a missing address then never
    fires. *)
Theorem no_call_iff_url_set_empty (width height : Z) :
  parse_int width_text = Some width ->
  parse_int height_text = Some height ->
  (proc_calls (run_script (main env)) = [] <->
   env !! "IMAGE_URL" = Some EmptyString).
Proof.
  intros Ew Eh. split.
  - intros Hcalls.
    destruct (decide (image_url = EmptyString)) as [Eu|Eu].
    + unfold environ_get in Eu.
      destruct (env !! "IMAGE_URL") as [v|]; [now subst|discriminate].
    + exfalso.
      destruct (completes_or_raises image_url width height) as [[jpeg Hc]|[e Hr]].
      * rewrite (main_completes env width height jpeg Ew Eh Eu Hc) in Hcalls.
        discriminate.
      * destruct (main_raises_take width height e Ew Eh Eu Hr) as (k & Hk & Ep).
        rewrite Ep in Hcalls. cbn [proc_calls] in Hcalls.
        destruct k as [|k]; [lia|discriminate].
  - intros Hurl.
    assert (image_url = EmptyString) as Eu
      by (unfold environ_get; now rewrite Hurl).
    now rewrite (main_no_url env width height Ew Eh Eu).
Qed.

(** X4: with both numbers read and an address given, the first thing the
    run does to the outside is the download of exactly that address. *)
Theorem download_comes_first (width height : Z) :
  parse_int width_text = Some width ->
  parse_int height_text = Some height ->
  image_url <> EmptyString ->
  head (proc_calls (run_script (main env))) = Some (CallGet image_url).
Proof.
  intros Ew Eh Eu.
  destruct (completes_or_raises image_url width height) as [[jpeg Hc]|[e Hr]].
  - now rewrite (main_completes env width height jpeg Ew Eh Eu Hc).
  - destruct (main_raises_take width height e Ew Eh Eu Hr) as (k & Hk & Ep).
    rewrite Ep. destruct k as [|k]; [lia|reflexivity].
Qed.

(** X5: success is never reported by mistake.  If the line printed is the
    text of a success document, then both numbers were read and every
    library call returned. *)
Theorem success_text_only_when_completed (image_url' img_str : string)
    (width' height' : Z) :
  proc_stdout (run_script (main env)) =
    [dumps None (success_response image_url' img_str width' height')] ->
  exists width height jpeg,
    parse_int width_text = Some width /\
    parse_int height_text = Some height /\
    completes image_url width height jpeg.
Proof.
  intros Hout.
  destruct (main_outcome env) as [(literal & Ep)|[(message & made & Ep)|Hs]].
  - rewrite Ep in Hout. discriminate.
  - rewrite Ep in Hout. cbn [proc_stdout] in Hout.
    apply (f_equal (fun lines => nth 0 lines EmptyString)) in Hout.
    cbn [nth] in Hout.
    now apply error_text_is_not_success_text in Hout.
  - destruct Hs as (width & height & jpeg & Ew & Eh & Hc & _).
    now exists width, height, jpeg.
Qed.


(** X7: an HTTP error status ends the run after two calls: the body of the
    response is never handed to the image decoder, and the error document
    carries the text of the status error. *)
Theorem http_error_body_is_not_decoded (width height : Z)
    (response : Response) (e : exn) :
  parse_int width_text = Some width ->
  parse_int height_text = Some height ->
  image_url <> EmptyString ->
  requests_get image_url = inr response ->
  raise_for_status response = inl e ->
  run_script (main env) =
    Process [dumps None (error_response (exn_str e))] None 0
            [CallGet image_url; CallRaiseForStatus].
Proof.
  intros Ew Eh Eu E1 E2.
  unfold run_script, main, mbind, py_bind.
  rewrite (int_returns _ _ _ Ew), (int_returns _ _ _ Eh).
  destruct image_url as [|c rest] eqn:Ei; [congruence|].
  cbn [truthy negb]. run_py. reflexivity.
Qed.

End One_environment.

End Image_processor_behaviour.

(** ** What the printed texts are made of *)

Section Text_facts.

Lemma all_chars_app (P : ascii -> bool) (a b : string) :
  all_chars P (a +:+ b) = all_chars P a && all_chars P b.
Proof.
  induction a as [|c a IH]; cbn [String.append all_chars]; [reflexivity|].
  now rewrite IH, andb_assoc.
Qed.

Lemma count_char_app (c : ascii) (a b : string) :
  count_char c (a +:+ b) = (count_char c a + count_char c b)%nat.
Proof.
  induction a as [|x a IH]; cbn [String.append count_char]; [reflexivity|].
  rewrite IH. lia.
Qed.

Lemma in_all_ascii (c : ascii) : In c all_ascii.
Proof.
  unfold all_ascii. apply in_map_iff. exists (nat_of_ascii c). split.
  - apply ascii_nat_embedding.
  - apply in_seq. pose proof (nat_ascii_bounded c). lia.
Qed.

(** A fact checked on each of the 256 characters holds of every character. *)
Lemma for_all_ascii (f : ascii -> bool) :
  forallb f all_ascii = true -> forall c, f c = true.
Proof. intros Hf c. exact (proj1 (forallb_forall _ _) Hf c (in_all_ascii c)). Qed.

(** Whatever the character, its escaped form is printable ASCII. *)
Lemma escape_char_printable (c : ascii) :
  all_chars printable (escape_char c) = true.
Proof.
  revert c. apply for_all_ascii. vm_compute. reflexivity.
Qed.

Lemma escape_printable (s : string) : all_chars printable (escape s) = true.
Proof.
  induction s as [|c s IH]; cbn [escape]; [reflexivity|].
  now rewrite all_chars_app, escape_char_printable, IH.
Qed.

Lemma encode_basestring_ascii_printable (s : string) :
  all_chars printable (encode_basestring_ascii s) = true.
Proof.
  unfold encode_basestring_ascii.
  now rewrite !all_chars_app, escape_printable.
Qed.

(** A character of base64 text is written as it is. *)
Lemma escape_char_base64 (c : ascii) :
  is_base64_char c = true -> escape_char c = str1 c.
Proof.
  intros Hc.
  assert (implb (is_base64_char c)
            (String.eqb (escape_char c) (str1 c)) = true) as Hi
    by (revert c Hc; intros c _; revert c; apply for_all_ascii;
        vm_compute; reflexivity).
  rewrite Hc in Hi. now apply String.eqb_eq.
Qed.

Lemma escape_base64 (s : string) :
  all_chars is_base64_char s = true -> escape s = s.
Proof.
  induction s as [|c s IH]; cbn [escape all_chars]; [reflexivity|].
  intros Hs. apply andb_prop in Hs as [Hc Hs].
  now rewrite (escape_char_base64 c Hc), (IH Hs).
Qed.

Lemma printable_is_not_newline (s : string) :
  all_chars printable s = true -> count_char newline s = 0%nat.
Proof.
  induction s as [|c s IH]; cbn [all_chars count_char]; [reflexivity|].
  intros Hs. apply andb_prop in Hs as [Hc Hs]. rewrite (IH Hs).
  destruct (Ascii.eqb_spec c newline) as [->|_]; [discriminate Hc|reflexivity].
Qed.

(** Decimal digits, and with them the text of any integer, are printable. *)
Lemma pretty_N_char_printable (d : N) : printable (pretty_N_char d) = true.
Proof. unfold pretty_N_char. repeat case_match; reflexivity. Qed.

Lemma pretty_N_go_all (P : ascii -> bool) :
  (forall d, P (pretty_N_char d) = true) ->
  forall x s, all_chars P s = true -> all_chars P (pretty_N_go x s) = true.
Proof.
  intros HP x. induction (N.lt_wf_0 x) as [x _ IH]. intros s Hs.
  destruct (N.eq_dec x 0%N) as [->|Hx]; [now rewrite pretty_N_go_0|].
  rewrite pretty_N_go_step by lia.
  apply IH; [apply N.div_lt; lia|].
  cbn [all_chars]. now rewrite HP, Hs.
Qed.

Lemma pretty_Z_printable (z : Z) : all_chars printable (pretty z) = true.
Proof.
  assert (forall p : positive, all_chars printable (pretty p) = true) as Hp.
  { intros p. unfold pretty, pretty_positive, pretty, pretty_N.
    case_decide; [reflexivity|].
    now apply pretty_N_go_all; [apply pretty_N_char_printable|]. }
  destruct z as [|p|p]; unfold pretty, pretty_Z; [reflexivity|apply Hp|].
  rewrite all_chars_app. now rewrite Hp.
Qed.

End Text_facts.

(** ** The base64 text *)

Section Base64_text.

(** A property of the sixty-four characters and of the padding holds of all
    the output of the encoder. *)
Lemma b2a_base64_forallb (P : byte -> bool) :
  (forall i, P (table_b2a_base64 i) = true) ->
  P BASE64_PAD = true ->
  forall n data, (length data <= n)%nat -> forallb P (b2a_base64 data) = true.
Proof.
  intros Ht Hp. induction n as [|n IH]; intros data Hlen.
  - destruct data; [reflexivity | simpl in Hlen; lia].
  - destruct data as [|b0 [|b1 [|b2 rest]]]; cbn [b2a_base64 forallb];
      rewrite ?Ht, ?Hp; try reflexivity.
    apply IH. simpl in Hlen. lia.
Qed.

Lemma all_chars_string_of_list_byte (P : ascii -> bool) (data : list byte) :
  all_chars P (string_of_list_byte data) =
  forallb (fun b => P (ascii_of_byte b)) data.
Proof.
  unfold string_of_list_byte.
  induction data as [|b data IH];
    cbn [map string_of_list_ascii all_chars forallb];
    [reflexivity | now rewrite IH].
Qed.

Lemma b64encode_base64_chars (data : list byte) :
  all_chars is_base64_char (decode_utf8 (b64encode data)) = true.
Proof.
  unfold decode_utf8, b64encode. rewrite all_chars_string_of_list_byte.
  apply (b2a_base64_forallb _) with (n := length data); [|reflexivity|lia].
  intros i. unfold table_b2a_base64.
  now apply (nth_forallb (fun b => is_base64_char (ascii_of_byte b))).
Qed.

Lemma length_string_of_list_byte (data : list byte) :
  String.length (string_of_list_byte data) = length data.
Proof.
  unfold string_of_list_byte.
  induction data as [|b data IH];
    cbn [map string_of_list_ascii String.length length];
    [reflexivity | now rewrite IH].
Qed.

Lemma length_b2a_base64 (n : nat) :
  forall data,
    (length data <= n)%nat ->
    length (b2a_base64 data) = (4 * ((length data + 2) / 3))%nat.
Proof.
  induction n as [|n IH]; intros data Hlen.
  - destruct data; [reflexivity | simpl in Hlen; lia].
  - destruct data as [|b0 [|b1 [|b2 rest]]]; try reflexivity.
    cbn [b2a_base64 length]. rewrite IH by (simpl in Hlen; lia).
    replace (S (S (S (length rest))) + 2)%nat with (1 * 3 + (length rest + 2))%nat by lia.
    rewrite Nat.div_add_l by lia. lia.
Qed.

(** X8: the base64 text of [n] bytes has four characters for every three
    bytes, the last group being padded: [4 * ceil (n / 3)] characters, always
    a multiple of four. *)
Theorem payload_length (data : list byte) :
  String.length (decode_utf8 (b64encode data)) =
  (4 * ((length data + 2) / 3))%nat.
Proof.
  unfold decode_utf8, b64encode.
  rewrite length_string_of_list_byte. now apply (length_b2a_base64 (length data)).
Qed.

End Base64_text.

(** ** The printed lines, character by character *)

Section Printed_texts.

Context `{Interpreter} `{Libraries}.

Import ImageProcessor.

Lemma error_text_layout (message : string) :
  dumps None (error_response message) =
  "{" +:+ quoted "error" +:+ ": " +:+ encode_basestring_ascii message
  +:+ ", " +:+ quoted "status" +:+ ": " +:+ quoted "error" +:+ "}".
Proof. normalize_text. Qed.

Lemma success_text_layout (image_url img_str : string) (width height : Z) :
  dumps None (success_response image_url img_str width height) =
  "{" +:+ quoted "original_url" +:+ ": "
  +:+ encode_basestring_ascii image_url +:+ ", "
  +:+ quoted "processed_image" +:+ ": "
  +:+ encode_basestring_ascii img_str +:+ ", "
  +:+ quoted "transformations" +:+ ": ["
  +:+ quoted "resize" +:+ ", " +:+ quoted "grayscale" +:+ ", "
  +:+ quoted "blur" +:+ "], "
  +:+ quoted "dimensions" +:+ ": {"
  +:+ quoted "width" +:+ ": " +:+ pretty width +:+ ", "
  +:+ quoted "height" +:+ ": " +:+ pretty height +:+ "}, "
  +:+ quoted "status" +:+ ": " +:+ quoted "success" +:+ "}".
Proof. normalize_text. Qed.

Lemma greeter_text_layout (message version platform : string) :
  dumps (Some 2%nat)
    (JDict [("message", JStr message);
            ("timestamp", JStr "2023-01-16T12:34:56Z");
            ("environment",
              JDict [("python_version", JStr version);
                     ("platform", JStr platform)])]) =
  "{" +:+ str1 newline
  +:+ "  " +:+ quoted "message" +:+ ": "
  +:+ encode_basestring_ascii message +:+ "," +:+ str1 newline
  +:+ "  " +:+ quoted "timestamp" +:+ ": "
  +:+ quoted "2023-01-16T12:34:56Z" +:+ "," +:+ str1 newline
  +:+ "  " +:+ quoted "environment" +:+ ": {" +:+ str1 newline
  +:+ "    " +:+ quoted "python_version" +:+ ": "
  +:+ encode_basestring_ascii version +:+ "," +:+ str1 newline
  +:+ "    " +:+ quoted "platform" +:+ ": "
  +:+ encode_basestring_ascii platform +:+ str1 newline
  +:+ "  }" +:+ str1 newline +:+ "}".
Proof. normalize_text. Qed.

Lemma error_text_printable (message : string) :
  all_chars printable (dumps None (error_response message)) = true.
Proof.
  rewrite error_text_layout, !all_chars_app, encode_basestring_ascii_printable.
  reflexivity.
Qed.

Lemma success_text_printable (image_url img_str : string) (width height : Z) :
  all_chars printable
    (dumps None (success_response image_url img_str width height)) = true.
Proof.
  rewrite success_text_layout, !all_chars_app,
    !encode_basestring_ascii_printable, !pretty_Z_printable.
  reflexivity.
Qed.

(** X9: whatever the environment, the address, the libraries and the text
    of an exception, every line the Image Processor prints is made of
    printable ASCII characters only: no line break, no control character and
    no character above the tilde reaches standard output unescaped. *)
Theorem output_is_printable_ascii (env : gmap string string) :
  forallb (all_chars printable) (proc_stdout (run_script (main env))) = true.
Proof.
  destruct (main_outcome env) as [(literal & Ep)|[(message & made & Ep)|Hs]].
  - now rewrite Ep.
  - rewrite Ep. cbn [proc_stdout forallb]. now rewrite error_text_printable.
  - destruct Hs as (width & height & jpeg & _ & _ & _ & Ep).
    rewrite Ep. cbn [proc_stdout forallb]. now rewrite success_text_printable.
Qed.

(** X10: the base64 text needs no escaping.  In a run in which no call
    raises, the value of [processed_image] stands in the printed line exactly
    as [b64encode] produced it, between two double quotes. *)
Theorem payload_is_printed_verbatim (env : gmap string string)
    (width height : Z) (jpeg : list byte) :
  parse_int (environ_get env "WIDTH" "300") = Some width ->
  parse_int (environ_get env "HEIGHT" "300") = Some height ->
  environ_get env "IMAGE_URL" default_image_url <> EmptyString ->
  completes (environ_get env "IMAGE_URL" default_image_url) width height jpeg ->
  proc_stdout (run_script (main env)) =
    ["{" +:+ quoted "original_url" +:+ ": "
     +:+ encode_basestring_ascii (environ_get env "IMAGE_URL" default_image_url)
     +:+ ", " +:+ quoted "processed_image" +:+ ": "
     +:+ quoted (decode_utf8 (b64encode jpeg)) +:+ ", "
     +:+ quoted "transformations" +:+ ": ["
     +:+ quoted "resize" +:+ ", " +:+ quoted "grayscale" +:+ ", "
     +:+ quoted "blur" +:+ "], "
     +:+ quoted "dimensions" +:+ ": {"
     +:+ quoted "width" +:+ ": " +:+ pretty width +:+ ", "
     +:+ quoted "height" +:+ ": " +:+ pretty height +:+ "}, "
     +:+ quoted "status" +:+ ": " +:+ quoted "success" +:+ "}"].
Proof.
  intros Ew Eh Eu Hc.
  rewrite (main_completes env width height jpeg Ew Eh Eu Hc).
  cbn [proc_stdout]. rewrite success_text_layout.
  unfold encode_basestring_ascii at 2.
  now rewrite (escape_base64 _ (b64encode_base64_chars jpeg)).
Qed.

(** X11: the Greeter always prints a text of eight lines.  Line breaks and
    quotes inside [NAME], or inside the interpreter's version and platform
    texts, are escaped, so that the text has exactly seven line breaks
    whatever these hold. *)
Theorem greeter_prints_eight_lines (env : gmap string string) :
  exists text,
    proc_stdout (run_script (Greeter.main env)) = [text] /\
    count_char newline text = 7%nat.
Proof.
  eexists. split; [reflexivity|].
  rewrite greeter_text_layout, !count_char_app.
  rewrite !(printable_is_not_newline _ (encode_basestring_ascii_printable _)).
  reflexivity.
Qed.

End Printed_texts.

(** ** Reading the sizes *)

Section Int_facts.

Context `{Interpreter}.

Lemma all_chars_impl (P Q : ascii -> bool) (s : string) :
  (forall c, P c = true -> Q c = true) ->
  all_chars P s = true -> all_chars Q s = true.
Proof.
  intros HPQ. induction s as [|c s IH]; cbn [all_chars]; [reflexivity|].
  intros Hs. apply andb_prop in Hs as [Hc Hs]. now rewrite (HPQ c Hc), (IH Hs).
Qed.

Lemma append_nil_r (s : string) : s +:+ EmptyString = s.
Proof. induction s as [|c s IH]; cbn [String.append]; [reflexivity | now f_equal]. Qed.

Lemma rev_app_rev_app (a b c : string) :
  String.rev_app (String.rev_app a b) c = String.rev_app b (a +:+ c).
Proof.
  revert b. induction a as [|x a IH]; intros b; cbn [String.rev_app String.append];
    [reflexivity|].
  now rewrite IH.
Qed.

Lemma rev_rev (s : string) : String.rev (String.rev s) = s.
Proof. unfold String.rev. now rewrite rev_app_rev_app, append_nil_r. Qed.

Lemma all_chars_rev_app (P : ascii -> bool) (a b : string) :
  all_chars P (String.rev_app a b) = all_chars P a && all_chars P b.
Proof.
  revert b. induction a as [|x a IH]; intros b; cbn [String.rev_app all_chars];
    [reflexivity|].
  rewrite IH. cbn [all_chars]. destruct (P x), (all_chars P a); reflexivity.
Qed.

Lemma lstrip_no_space (s : string) :
  all_chars (fun c => negb (is_space c)) s = true -> lstrip s = s.
Proof.
  destruct s as [|c s]; cbn [all_chars lstrip]; [reflexivity|].
  intros Hs. apply andb_prop in Hs as [Hc _].
  now apply negb_true_iff in Hc as ->.
Qed.

(** A text without white space is left as it is. *)
Lemma strip_no_space (s : string) :
  all_chars (fun c => negb (is_space c)) s = true -> strip s = s.
Proof.
  intros Hs. unfold strip. rewrite (lstrip_no_space s Hs).
  rewrite lstrip_no_space; [apply rev_rev|].
  unfold String.rev. now rewrite all_chars_rev_app, Hs.
Qed.

Lemma all_chars_lstrip (P : ascii -> bool) (s : string) :
  all_chars P s = true -> all_chars P (lstrip s) = true.
Proof.
  induction s as [|c s IH]; cbn [all_chars lstrip]; [reflexivity|].
  intros Hs. destruct (is_space c); [|exact Hs].
  apply andb_prop in Hs as [_ Hs]. now apply IH.
Qed.

Lemma all_chars_strip (P : ascii -> bool) (s : string) :
  all_chars P s = true -> all_chars P (strip s) = true.
Proof.
  intros Hs. unfold strip, String.rev.
  rewrite all_chars_rev_app, andb_true_r. apply all_chars_lstrip.
  rewrite all_chars_rev_app, andb_true_r. now apply all_chars_lstrip.
Qed.

(** A text that begins with white space of any kind is no signed number:
    either the character is skipped, or it is one that [int] does not skip
    and that is neither a sign nor a digit. *)
Lemma parse_signed_blank (s : string) :
  all_chars Py_UNICODE_ISSPACE s = true -> parse_signed s = None.
Proof.
  destruct s as [|c s]; [reflexivity|]. cbn [all_chars]. intros Hs.
  apply andb_prop in Hs as [Hc _].
  destruct c as [[] [] [] [] [] [] [] []]; try discriminate Hc; reflexivity.
Qed.

(** A text of white space only, the empty text included, is no number. *)
Lemma parse_int_blank (s : string) :
  all_chars Py_UNICODE_ISSPACE s = true -> parse_int s = None.
Proof.
  intros Hs. unfold parse_int.
  now rewrite (parse_signed_blank _ (all_chars_strip _ s Hs)).
Qed.

Lemma digit_is_no_space (c : ascii) :
  is_digit c = true -> negb (is_space c) = true.
Proof.
  intros Hc.
  assert (implb (is_digit c) (negb (is_space c)) = true) as Hi
    by (clear Hc; revert c; apply for_all_ascii; vm_compute; reflexivity).
  now rewrite Hc in Hi.
Qed.

Lemma digit_value_of_digit (c : ascii) :
  is_digit c = true -> exists d, digit_value c = Some d.
Proof.
  unfold is_digit, digit_value. intros ->. eauto.
Qed.

Lemma pretty_N_char_digit (d : N) : is_digit (pretty_N_char d) = true.
Proof. unfold pretty_N_char. repeat case_match; reflexivity. Qed.

Lemma digit_value_pretty_N_char (d : N) :
  (d < 10)%N -> digit_value (pretty_N_char d) = Some (Z.of_N d).
Proof.
  intros Hd.
  assert (d = 0 \/ d = 1 \/ d = 2 \/ d = 3 \/ d = 4 \/ d = 5 \/ d = 6
          \/ d = 7 \/ d = 8 \/ d = 9)%N as Hcases by lia.
  repeat (destruct Hcases as [->|Hcases]; [reflexivity|]).
  now subst.
Qed.

Lemma pretty_N_go_not_empty (x : N) :
  forall s, s <> EmptyString -> pretty_N_go x s <> EmptyString.
Proof.
  induction (N.lt_wf_0 x) as [x _ IH]. intros s Hs.
  destruct (N.eq_dec x 0%N) as [->|Hx]; [now rewrite pretty_N_go_0|].
  rewrite pretty_N_go_step by lia.
  apply IH; [apply N.div_lt; lia | discriminate].
Qed.

(** Scanning the decimal text of [x] appends the digits of [x] to the number
    read so far. *)
Lemma scan_digits_pretty_N_go (x : N) :
  forall s acc,
  exists k,
    0 <= k /\
    scan_digits acc false (pretty_N_go x s) =
    scan_digits (acc * 10 ^ k + Z.of_N x) false s.
Proof.
  induction (N.lt_wf_0 x) as [x _ IH]. intros s acc.
  destruct (N.eq_dec x 0%N) as [->|Hx].
  - exists 0. rewrite pretty_N_go_0. split; [lia|]. f_equal. lia.
  - rewrite pretty_N_go_step by lia.
    destruct (IH (x / 10)%N (N.div_lt x 10 ltac:(lia) ltac:(lia))
                (String (pretty_N_char (x mod 10)) s) acc) as (k & Hk & Es).
    exists (k + 1). split; [lia|]. rewrite Es. cbn [scan_digits].
    rewrite digit_value_pretty_N_char by (apply N.mod_lt; lia).
    f_equal. rewrite Z.pow_add_r, Z.pow_1_r by lia.
    pose proof (N.div_mod x 10 ltac:(lia)) as Hdm. lia.
Qed.

Lemma parse_magnitude_scan (s : string) :
  all_chars is_digit s = true -> s <> EmptyString ->
  parse_magnitude s = scan_digits 0 false s.
Proof.
  destruct s as [|c s]; [congruence|]. cbn [all_chars]. intros Hs _.
  apply andb_prop in Hs as [Hc _].
  destruct (digit_value_of_digit c Hc) as (d & Ed).
  cbn [parse_magnitude scan_digits]. now rewrite Ed.
Qed.

Lemma parse_signed_unsigned (s : string) :
  all_chars is_digit s = true -> parse_signed s = parse_magnitude s.
Proof.
  intros Hs. destruct s as [|c s]; [reflexivity|].
  cbn [all_chars] in Hs. apply andb_prop in Hs as [Hc _].
  destruct c as [[] [] [] [] [] [] [] []]; try discriminate Hc; reflexivity.
Qed.

Lemma count_digits_all_digits (s : string) :
  all_chars is_digit s = true -> count_digits s = String.length s.
Proof.
  induction s as [|c s IH]; cbn [all_chars count_digits String.length];
    [reflexivity|].
  intros Hs. apply andb_prop in Hs as [Hc Hs].
  destruct (digit_value_of_digit c Hc) as (d & ->). now rewrite (IH Hs).
Qed.

Lemma parse_digits_of_positive (p : positive) :
  all_chars is_digit (pretty_N_go (N.pos p) EmptyString) = true /\
  parse_magnitude (pretty_N_go (N.pos p) EmptyString) = Some (Z.pos p).
Proof.
  assert (all_chars is_digit (pretty_N_go (N.pos p) EmptyString) = true) as Hd
    by (apply pretty_N_go_all; [apply pretty_N_char_digit|reflexivity]).
  split; [exact Hd|].
  rewrite parse_magnitude_scan; [|exact Hd|].
  - destruct (scan_digits_pretty_N_go (N.pos p) EmptyString 0) as (k & _ & Es).
    rewrite Es. cbn [scan_digits]. f_equal.
  - rewrite pretty_N_go_step by lia. apply pretty_N_go_not_empty. discriminate.
Qed.

Lemma pretty_Zpos (p : positive) :
  pretty (Z.pos p) = pretty_N_go (N.pos p) EmptyString.
Proof.
  unfold pretty, pretty_Z, pretty, pretty_positive, pretty, pretty_N.
  now case_decide.
Qed.

Lemma pretty_Zneg (p : positive) :
  pretty (Z.neg p) = "-" +:+ pretty_N_go (N.pos p) EmptyString.
Proof.
  unfold pretty, pretty_Z, pretty, pretty_positive, pretty, pretty_N.
  now case_decide.
Qed.

(** [int] reads the decimal text of an integer back to that integer,
    whatever its sign, provided that the number of its digits is within the
    interpreter's limit. *)
Lemma parse_int_pretty (z : Z) :
  too_many_digits (String.length (pretty (Z.abs z))) = false ->
  parse_int (pretty z) = Some z.
Proof.
  intros Hlimit. destruct z as [|p|p].
  - reflexivity.
  - change (Z.abs (Z.pos p)) with (Z.pos p) in Hlimit.
    destruct (parse_digits_of_positive p) as [Hd Ep].
    rewrite pretty_Zpos in Hlimit |- *. unfold parse_int.
    rewrite strip_no_space
      by (apply (all_chars_impl is_digit); [apply digit_is_no_space|exact Hd]).
    rewrite parse_signed_unsigned, Ep by exact Hd.
    now rewrite count_digits_all_digits, Hlimit.
  - change (Z.abs (Z.neg p)) with (Z.pos p) in Hlimit.
    destruct (parse_digits_of_positive p) as [Hd Ep].
    rewrite pretty_Zpos in Hlimit. rewrite pretty_Zneg. unfold parse_int.
    rewrite strip_no_space.
    + cbn [String.append parse_signed count_digits]. rewrite Ep.
      change (digit_value "-") with (@None Z). cbn [option_map].
      now rewrite count_digits_all_digits, Hlimit.
    + cbn [String.append all_chars].
      now rewrite (all_chars_impl is_digit _ _ digit_is_no_space Hd).
Qed.

(** Up to 640 digits the limit is not even looked at. *)
Lemma short_literal_is_within_limit (digits : nat) :
  (digits <= str_digits_check_threshold)%nat -> too_many_digits digits = false.
Proof.
  intros Hd. unfold too_many_digits.
  now apply Nat.ltb_ge in Hd as ->.
Qed.

End Int_facts.

Section Sizes_in_the_script.

Context `{Interpreter} `{Libraries}.

Import ImageProcessor.

Variable env : gmap string string.

Local Abbreviation image_url := (environ_get env "IMAGE_URL" default_image_url).

Ltac run_py :=
  unfold process_image, mbind, py_bind, mret, py_ret, mthrow, py_throw,
    invoke, print, try_except;
  repeat (cbv beta iota zeta;
          match goal with
          | E : ?call = inr _ |- context [?call] => rewrite E
          | E : ?call = inl _ |- context [?call] => rewrite E
          end);
  cbv beta iota zeta.

(** X12: the script puts no bounds on the sizes.  Any two integers written
    in decimal in [WIDTH] and [HEIGHT], zero and negative ones included, are
    handed unchanged to [resize] once the image is decoded, as long as [int]
    takes them: the only bound is the interpreter's limit on the number of
    digits of a literal.  What becomes of the sizes is left to the image
    library. *)
Theorem sizes_are_not_range_checked (width height : Z)
    (response : Response) (img0 : Image) :
  env !! "WIDTH" = Some (pretty width) ->
  env !! "HEIGHT" = Some (pretty height) ->
  too_many_digits (String.length (pretty (Z.abs width))) = false ->
  too_many_digits (String.length (pretty (Z.abs height))) = false ->
  image_url <> EmptyString ->
  requests_get image_url = inr response ->
  raise_for_status response = inr tt ->
  Image_open (content response) = inr img0 ->
  take 4 (proc_calls (run_script (main env))) =
    [CallGet image_url; CallRaiseForStatus; CallImageOpen;
     CallResize width height].
Proof.
  intros Hw Hh Lw Lh Eu E1 E2 E3.
  assert (parse_int (environ_get env "WIDTH" "300") = Some width) as Ew
    by (unfold environ_get; rewrite Hw; now apply parse_int_pretty).
  assert (parse_int (environ_get env "HEIGHT" "300") = Some height) as Eh
    by (unfold environ_get; rewrite Hh; now apply parse_int_pretty).
  unfold run_script, main, mbind, py_bind.
  rewrite (int_returns _ _ _ Ew), (int_returns _ _ _ Eh).
  destruct image_url as [|c rest] eqn:Ei; [congruence|].
  cbn [truthy negb].
  destruct (Image_resize img0 (width, height)) as [e|img1] eqn:E4;
    [run_py; reflexivity|].
  destruct (ImageOps_grayscale img1) as [e|img2] eqn:E5;
    [run_py; reflexivity|].
  destruct (Image_filter img2 (GaussianBlur 2)) as [e|img3] eqn:E6;
    [run_py; reflexivity|].
  destruct (Image_save img3 "JPEG") as [e|jpeg] eqn:E7;
    run_py; reflexivity.
Qed.

(** X13: a size that is set but empty, or made of white space only (of any
    kind that [str] knows below 256), does not fall back to the default 300:
    [int] rejects it, and the run ends with the uncaught [ValueError], nothing
    printed and no library called. *)
Theorem blank_size_is_rejected (s : string) :
  env !! "WIDTH" = Some s \/ env !! "HEIGHT" = Some s ->
  all_chars Py_UNICODE_ISSPACE s = true ->
  exists literal,
    run_script (main env) =
    Process [] (Some (Exn "ValueError" (invalid_literal literal))) 1 [].
Proof.
  intros Hset Hs. apply main_parse_failure.
  pose proof (parse_int_blank s Hs) as Es.
  unfold environ_get. destruct Hset as [-> | ->]; auto.
Qed.

End Sizes_in_the_script.

(** ** The further theorems on the sample interpreter and libraries *)

Section More_samples.

Import ImageProcessor.

#[local] Existing Instance Sample.interpreter.
#[local] Existing Instance Sample.libraries.

Lemma default_size_is_300_witness :
  proc_exit (run_script (main {[ "IMAGE_URL" := Sample.cat_url ]})) = 0 /\
  forall jpeg,
    environ_get {[ "IMAGE_URL" := Sample.cat_url ]} "IMAGE_URL" default_image_url
      <> EmptyString ->
    completes
      (environ_get {[ "IMAGE_URL" := Sample.cat_url ]} "IMAGE_URL" default_image_url)
      300 300 jpeg ->
    proc_calls (run_script (main {[ "IMAGE_URL" := Sample.cat_url ]})) !! 3%nat =
      Some (CallResize 300 300) /\
    exists response,
      proc_stdout (run_script (main {[ "IMAGE_URL" := Sample.cat_url ]})) =
        [dumps None response] /\
      jget "dimensions" response =
        Some (JDict [("width", JInt 300); ("height", JInt 300)]).
Proof.
  apply (default_size_is_300 {[ "IMAGE_URL" := Sample.cat_url ]}); reflexivity.
Defined.

Lemma no_call_iff_url_set_empty_witness :
  proc_calls (run_script (main {[ "IMAGE_URL" := EmptyString ]})) = [] <->
  ({[ "IMAGE_URL" := EmptyString ]} : gmap string string) !! "IMAGE_URL" =
    Some EmptyString.
Proof.
  apply (no_call_iff_url_set_empty {[ "IMAGE_URL" := EmptyString ]} 300 300);
    reflexivity.
Defined.

Lemma download_comes_first_witness :
  head (proc_calls (run_script (main Sample.cat_env))) =
  Some (CallGet (environ_get Sample.cat_env "IMAGE_URL" default_image_url)).
Proof.
  apply (download_comes_first Sample.cat_env 100 150);
    solve [reflexivity | discriminate].
Defined.

Lemma success_text_only_when_completed_witness :
  exists width height jpeg,
    parse_int (environ_get Sample.cat_env "WIDTH" "300") = Some width /\
    parse_int (environ_get Sample.cat_env "HEIGHT" "300") = Some height /\
    completes (environ_get Sample.cat_env "IMAGE_URL" default_image_url)
      width height jpeg.
Proof.
  apply (success_text_only_when_completed Sample.cat_env Sample.cat_url
           (decode_utf8 (b64encode Sample.cat_jpeg)) 100 150).
  reflexivity.
Defined.


Lemma http_error_body_is_not_decoded_witness :
  run_script (main {[ "IMAGE_URL" := Sample.missing_url ]}) =
    Process [dumps None (error_response (exn_str Sample.not_found))] None 0
            [CallGet
               (environ_get {[ "IMAGE_URL" := Sample.missing_url ]}
                  "IMAGE_URL" default_image_url);
             CallRaiseForStatus].
Proof.
  apply (http_error_body_is_not_decoded (H := Sample.interpreter)
           (H0 := Sample.libraries)
           {[ "IMAGE_URL" := Sample.missing_url ]} 300 300 (404, [])
           Sample.not_found);
    solve [reflexivity | discriminate].
Defined.

Lemma payload_is_printed_verbatim_witness :
  proc_stdout (run_script (main Sample.cat_env)) =
    ["{" +:+ quoted "original_url" +:+ ": "
     +:+ encode_basestring_ascii
           (environ_get Sample.cat_env "IMAGE_URL" default_image_url)
     +:+ ", " +:+ quoted "processed_image" +:+ ": "
     +:+ quoted (decode_utf8 (b64encode Sample.cat_jpeg)) +:+ ", "
     +:+ quoted "transformations" +:+ ": ["
     +:+ quoted "resize" +:+ ", " +:+ quoted "grayscale" +:+ ", "
     +:+ quoted "blur" +:+ "], "
     +:+ quoted "dimensions" +:+ ": {"
     +:+ quoted "width" +:+ ": " +:+ pretty 100 +:+ ", "
     +:+ quoted "height" +:+ ": " +:+ pretty 150 +:+ "}, "
     +:+ quoted "status" +:+ ": " +:+ quoted "success" +:+ "}"].
Proof.
  apply (payload_is_printed_verbatim Sample.cat_env 100 150 Sample.cat_jpeg).
  - reflexivity.
  - reflexivity.
  - discriminate.
  - exact sample_completes.
Defined.

Lemma sizes_are_not_range_checked_witness :
  take 4 (proc_calls (run_script (main Sample.negative_env))) =
    [CallGet (environ_get Sample.negative_env "IMAGE_URL" default_image_url);
     CallRaiseForStatus; CallImageOpen; CallResize (-5) 0].
Proof.
  apply (sizes_are_not_range_checked (H := Sample.interpreter)
           (H0 := Sample.libraries)
           Sample.negative_env (-5) 0 (200, Sample.cat_png)
           (Sample.Picture (4, 2) "RGB" Sample.cat_png));
    solve [reflexivity | discriminate].
Defined.

Lemma blank_size_is_rejected_witness :
  exists literal,
    run_script (main {[ "HEIGHT" := "  " ]}) =
    Process [] (Some (Exn "ValueError" (invalid_literal literal))) 1 [].
Proof.
  apply (blank_size_is_rejected {[ "HEIGHT" := "  " ]} "  ").
  - right. reflexivity.
  - reflexivity.
Defined.

End More_samples.
